(** * Nutrient Document Engine MCP server: request handlers

    A shallow embedding of [src/nutrient-document-engine/index.ts].

    The server registers four request handlers.  Each one talks to the
    Document Engine REST backend through one axios instance ([api.get],
    [api.post]) and reshapes the JSON it gets back.  The embedding keeps

    - the dynamically typed JSON data the handlers touch ([value]), with
      JavaScript's own rules for property access, truthiness and string
      conversion, since the handlers rely on them ([||], template literals,
      [.map], optional chaining);
    - the effects: every backend exchange and every [console.error] line is
      recorded in a [world], exceptions are the right-hand side of [result],
      and [try]/[catch] is a combinator. *)

From Stdlib Require Import String Ascii List Bool Arith ZArith Lia.
From Stdlib Require Import DecimalString.
Import ListNotations.
Open Scope string_scope.

Set Implicit Arguments.

(** ** Exceptions and fallible results *)

(** What a handler can throw or catch: a [TypeError] of the language, an
    [Error] built with [new Error(msg)], or the rejection of an axios call. *)
Inductive error : Type :=
| TypeError
| Error (message : string)
| AxiosError (detail : string).

Inductive result (A : Type) : Type :=
| Ok (a : A)
| Err (e : error).
Arguments Ok {A} a.
Arguments Err {A} e.

Definition is_ok {A} (r : result A) : bool :=
  match r with Ok _ => true | Err _ => false end.

Definition rbind {A B} (r : result A) (k : A -> result B) : result B :=
  match r with
  | Ok a => k a
  | Err e => Err e
  end.

Notation "'let?' x ':=' r 'in' k" := (rbind r (fun x => k))
  (at level 10, x name, r at level 100, k at level 200).

(** [xs.map(f)] for a callback that may throw: elements are visited from
    left to right and the first exception ends the traversal. *)
Fixpoint rmap {A B} (f : A -> result B) (xs : list A) : result (list B) :=
  match xs with
  | [] => Ok []
  | x :: rest =>
      match f x with
      | Ok y =>
          match rmap f rest with
          | Ok ys => Ok (y :: ys)
          | Err e => Err e
          end
      | Err e => Err e
      end
  end.

(** [parts.join(sep)] on strings. *)
Fixpoint join (sep : string) (parts : list string) : string :=
  match parts with
  | [] => ""
  | [p] => p
  | p :: rest => p ++ sep ++ join sep rest
  end.

(** Decimal rendering of an array length (a natural number below 2^32,
    which JavaScript prints as a plain decimal numeral). *)
Definition nat_to_string (n : nat) : string :=
  NilEmpty.string_of_uint (Nat.to_uint n).

(** ** [String.prototype.replace] with a string pattern

    [s.replace(pat, repl)] with a string [pat] replaces the first occurrence
    of [pat] in [s], wherever it is, and leaves [s] alone when there is none.
    (The replacement used by the server is the empty string, so the [$]
    patterns of the replacement text play no part.) *)

Fixpoint drop_chars (n : nat) (s : string) : string :=
  match n, s with
  | O, _ => s
  | S _, EmptyString => EmptyString
  | S k, String _ rest => drop_chars k rest
  end.

Fixpoint replace_first (pat repl s : string) : string :=
  if String.prefix pat s then repl ++ drop_chars (String.length pat) s
  else
    match s with
    | EmptyString => EmptyString
    | String c rest => String c (replace_first pat repl rest)
    end.


(** ** JSON values, as JavaScript sees them *)

Section Values.

(** JavaScript numbers are IEEE doubles.  The handlers never compute with
    them: they only print them and test them for truthiness, so the
    number type and these two operations are parameters. *)
Variable number : Type.
Variable num_to_string : number -> string.
(** [+0], [-0] and [NaN]. *)
Variable num_is_falsy : number -> bool.

(** A value that came out of [JSON.parse] or out of an object literal of
    the server.  Objects keep their keys in insertion order. *)
#[warnings="-register-all"]
Inductive value : Type :=
| VUndefined
| VNull
| VBool (b : bool)
| VNum (n : number)
| VStr (s : string)
| VArr (items : list value)
| VObj (fields : list (string * value)).

Definition fields_t : Type := list (string * value).

Fixpoint lookup (key : string) (fs : fields_t) : option value :=
  match fs with
  | [] => None
  | (k, v) :: rest => if String.eqb k key then Some v else lookup key rest
  end.

(** [o[key]] on an object: a missing key reads as [undefined]. *)
Definition field (key : string) (fs : fields_t) : value :=
  match lookup key fs with
  | Some v => v
  | None => VUndefined
  end.

(** [v.key] for the keys the server reads ([data], [id], [attributes],
    [title], ...; none of them is a built-in property of strings, arrays
    or [Object.prototype]).  Reading a property of [undefined] or [null]
    throws; on any other primitive and on arrays the key is missing. *)
Definition get_prop (v : value) (key : string) : result value :=
  match v with
  | VUndefined | VNull => Err TypeError
  | VObj fs => Ok (field key fs)
  | VBool _ | VNum _ | VStr _ | VArr _ => Ok VUndefined
  end.

(** ToBoolean. *)
Definition truthy (v : value) : bool :=
  match v with
  | VUndefined | VNull => false
  | VBool b => b
  | VNum n => negb (num_is_falsy n)
  | VStr s => negb (String.eqb s "")
  | VArr _ | VObj _ => true
  end.

(** ToString, as a template literal applies it.  An array prints its
    elements separated by commas, [undefined] and [null] elements printing
    as nothing.  A plain object prints as [[object Object]]; an object
    with an own [toString] key (which, in JSON data, cannot hold a
    function) has no usable conversion and throws. *)
Fixpoint to_string (v : value) : result string :=
  match v with
  | VUndefined => Ok "undefined"
  | VNull => Ok "null"
  | VBool true => Ok "true"
  | VBool false => Ok "false"
  | VNum n => Ok (num_to_string n)
  | VStr s => Ok s
  | VArr items =>
      let fix elems (l : list value) : result (list string) :=
        match l with
        | [] => Ok []
        | x :: rest =>
            match (match x with
                   | VUndefined | VNull => Ok ""
                   | _ => to_string x
                   end) with
            | Ok s =>
                match elems rest with
                | Ok ss => Ok (s :: ss)
                | Err e => Err e
                end
            | Err e => Err e
            end
        end in
      match elems items with
      | Ok ss => Ok (join "," ss)
      | Err e => Err e
      end
  | VObj fs =>
      match lookup "toString" fs with
      | Some _ => Err TypeError
      | None => Ok "[object Object]"
      end
  end.

(** [v.map(f)]: only arrays have a [map] method. *)
Definition js_map {B} (v : value) (f : value -> result B)
  : result (list B) :=
  match v with
  | VArr items => rmap f items
  | _ => Err TypeError
  end.

End Values.

Arguments VUndefined {number}.
Arguments VNull {number}.
Arguments VBool {number} b.
Arguments VStr {number} s.
Arguments VArr {number} items.
Arguments VObj {number} fields.

(** ** The backend, the world and the handler monad *)

Definition nl : string := String (ascii_of_nat 10) EmptyString.

Module Adapter.

Section Server.

Variable number : Type.
Variable num_to_string : number -> string.
Variable num_is_falsy : number -> bool.

Local Abbreviation value := (value number).
Local Abbreviation to_string := (to_string num_to_string).
Local Abbreviation truthy := (truthy num_is_falsy).

(** [JSON.stringify(v, null, 2)], the pretty-printer of the language. *)
Variable JSON_stringify : value -> string.

(** One request sent through the axios instance.  [api.get(url)] without
    a second argument has [config = VUndefined]. *)
Inductive call : Type :=
| Get (url : string) (config : value)
| Post (url : string) (body : value).

(** What [await api.get(...)] evaluates to when the promise resolves. *)
Record axios_response : Type := { data : value }.

(** The Document Engine: some state of its own, and for each request
    either the parsed JSON body of a 2xx answer or the reason the promise
    was rejected. *)
Variable backend_state : Type.
Variable backend : backend_state -> call -> result value * backend_state.

Record world : Type := {
  engine : backend_state;
  exchanges : list (call * result value);
  console : list (string * error)
}.

Definition M (A : Type) : Type := world -> result A * world.

Definition ret {A} (a : A) : M A := fun w => (Ok a, w).

Definition throw {A} (e : error) : M A := fun w => (Err e, w).

Definition bind {A B} (m : M A) (k : A -> M B) : M B :=
  fun w =>
    match m w with
    | (Ok a, w') => k a w'
    | (Err e, w') => (Err e, w')
    end.

(** A pure expression that may throw. *)
Definition lift {A} (r : result A) : M A := fun w => (r, w).

(** [try { body } catch (error) { handler }]. *)
Definition try_catch {A} (body : M A) (handler : error -> M A) : M A :=
  fun w =>
    match body w with
    | (Ok a, w') => (Ok a, w')
    | (Err e, w') => handler e w'
    end.

Definition console_error (msg : string) (e : error) : M unit :=
  fun w =>
    (Ok tt, {| engine := engine w;
               exchanges := exchanges w;
               console := console w ++ [(msg, e)] |}).

(** [await (the axios call c)]: the backend answers, the exchange is
    recorded, and a rejection is thrown into the handler. *)
Definition request (c : call) : M axios_response :=
  fun w =>
    let (answer, engine') := backend (engine w) c in
    let w' := {| engine := engine';
                 exchanges := exchanges w ++ [(c, answer)];
                 console := console w |} in
    match answer with
    | Ok body => (Ok {| data := body |}, w')
    | Err e => (Err e, w')
    end.

Definition api_get (url : string) (config : value) : M axios_response :=
  request (Get url config).

Definition api_post (url : string) (body : value) : M axios_response :=
  request (Post url body).

Notation "x <- m ;; k" := (bind m (fun x => k))
  (at level 61, m at next level, right associativity).
Notation "m ;;; k" := (bind m (fun _ => k))
  (at level 61, right associativity).

(** ** Shared pieces *)

Definition uri_prefix : string := "nutrient-document-engine:///".

(** [doc.attributes.title || `Document ${doc.id}`]. *)
Definition display_name (doc : value) : result value :=
  let? attributes := get_prop doc "attributes" in
  let? title := get_prop attributes "title" in
  if truthy title then Ok title
  else
    let? id := get_prop doc "id" in
    let? id_text := to_string id in
    Ok (VStr ("Document " ++ id_text)).

(** ** [ListResourcesRequestSchema] handler *)

Record ListResourcesParams : Type := { cursor : option string }.
Record ListResourcesRequest : Type := {
  list_params : option ListResourcesParams
}.

Record Resource : Type := {
  uri : string;
  mimeType : string;
  name : value
}.

(** [nextCursor] holds [VUndefined] when the property is [undefined]. *)
Record ListResourcesResult : Type := {
  resources : list Resource;
  nextCursor : value
}.

(** [request.params?.cursor], when it is truthy. *)
Definition truthy_cursor (req : ListResourcesRequest) : option string :=
  match list_params req with
  | Some p =>
      match cursor p with
      | Some c => if String.eqb c "" then None else Some c
      | None => None
      end
  | None => None
  end.

Definition list_query_params (req : ListResourcesRequest) : value :=
  match truthy_cursor req with
  | Some c => VObj [("page", VStr c)]
  | None => VObj []
  end.

Definition resource_of_doc (doc : value) : result Resource :=
  let? id := get_prop doc "id" in
  let? id_text := to_string id in
  let? shown := display_name doc in
  Ok {| uri := uri_prefix ++ id_text;
        mimeType := "application/pdf";
        name := shown |}.

(** [response.data.meta.pagination.next_page || undefined]. *)
Definition next_cursor_of (body : value) : result value :=
  let? meta := get_prop body "meta" in
  let? pagination := get_prop meta "pagination" in
  let? next_page := get_prop pagination "next_page" in
  Ok (if truthy next_page then next_page else VUndefined).

Definition list_resources (req : ListResourcesRequest)
  : M ListResourcesResult :=
  try_catch
    (let params := list_query_params req in
     response <- api_get "/api/documents" (VObj [("params", params)]) ;;
     documents <- lift (get_prop (data response) "data") ;;
     mapped <- lift (js_map documents resource_of_doc) ;;
     next <- lift (next_cursor_of (data response)) ;;
     ret {| resources := mapped; nextCursor := next |})
    (fun error =>
       console_error "Error listing documents:" error ;;;
       throw (Error "Failed to list documents")).
(** ** [ReadResourceRequestSchema] handler *)

Record ReadResourceRequest : Type := { read_uri : string }.

Record ResourceContents : Type := {
  contents_uri : string;
  contents_mimeType : string;
  contents_text : string
}.

Record ReadResourceResult : Type := { contents : list ResourceContents }.

(** [request.params.uri.replace("nutrient-document-engine:///", "")]. *)
Definition documentId (req : ReadResourceRequest) : string :=
  replace_first uri_prefix "" (read_uri req).

Definition document_url (id : string) : string := "/api/documents/" ++ id.
Definition layers_url (id : string) : string :=
  "/api/documents/" ++ id ++ "/layers".
Definition annotations_url (id : string) : string :=
  "/api/documents/" ++ id ++ "/annotations".

Definition layer_info (layer : value) : result value :=
  let? id := get_prop layer "id" in
  let? attributes := get_prop layer "attributes" in
  let? layer_name := get_prop attributes "name" in
  let? attributes' := get_prop layer "attributes" in
  let? visible := get_prop attributes' "visible" in
  Ok (VObj [("id", id); ("name", layer_name); ("visible", visible)]).

Definition annotation_info (annotation : value) : result value :=
  let? id := get_prop annotation "id" in
  let? a1 := get_prop annotation "attributes" in
  let? type := get_prop a1 "type" in
  let? a2 := get_prop annotation "attributes" in
  let? page := get_prop a2 "page" in
  let? a3 := get_prop annotation "attributes" in
  let? content := get_prop a3 "content" in
  Ok (VObj [("id", id); ("type", type); ("page", page);
            ("content", content)]).

Definition document_info (document layers annotations : value)
  : result value :=
  let? id := get_prop document "id" in
  let? a1 := get_prop document "attributes" in
  let? title := get_prop a1 "title" in
  let? a2 := get_prop document "attributes" in
  let? page_count := get_prop a2 "page_count" in
  let? layer_list := js_map layers layer_info in
  let? annotation_list := js_map annotations annotation_info in
  Ok (VObj [("id", id); ("title", title); ("pageCount", page_count);
            ("layers", VArr layer_list);
            ("annotations", VArr annotation_list)]).

Definition read_resource (req : ReadResourceRequest)
  : M ReadResourceResult :=
  try_catch
    (let id := documentId req in
     docResponse <- api_get (document_url id) VUndefined ;;
     document <- lift (get_prop (data docResponse) "data") ;;
     layersResponse <- api_get (layers_url id) VUndefined ;;
     layers <- lift (get_prop (data layersResponse) "data") ;;
     annotationsResponse <- api_get (annotations_url id) VUndefined ;;
     annotations <- lift (get_prop (data annotationsResponse) "data") ;;
     documentInfo <- lift (document_info document layers annotations) ;;
     ret {| contents :=
              [ {| contents_uri := read_uri req;
                   contents_mimeType := "application/json";
                   contents_text := JSON_stringify documentInfo |} ] |})
    (fun error =>
       console_error "Error reading document:" error ;;;
       throw (Error "Failed to read document")).

(** ** [CallToolRequestSchema] handler *)

(** [request.params]: the tool name and the optional arguments object. *)
Record CallToolRequest : Type := {
  tool_name : string;
  arguments : option (list (string * value))
}.

Record TextContent : Type := { content_type : string; text : string }.

Record CallToolResult : Type := {
  content : list TextContent;
  isError : bool
}.


Definition text_result (t : string) (flag : bool) : CallToolResult :=
  {| content := [ {| content_type := "text"; text := t |} ];
     isError := flag |}.

(** [`${doc.attributes.title || `Document ${doc.id}`} (ID: ${doc.id})`]. *)
Definition search_line (doc : value) : result string :=
  let? shown := display_name doc in
  let? shown_text := to_string shown in
  let? id := get_prop doc "id" in
  let? id_text := to_string id in
  Ok (shown_text ++ " (ID: " ++ id_text ++ ")").

(** [{ params: { filter: { query } } }]. *)
Definition search_config (query : value) : value :=
  VObj [("params", VObj [("filter", VObj [("query", query)])])].

(** [request.params.arguments?.query]. *)
Definition search_query (req : CallToolRequest) : value :=
  match arguments req with
  | Some args => field "query" args
  | None => VUndefined
  end.

Definition search_failed : string :=
  "Failed to search documents. Please try again.".

(** The [search] branch.  [documents.map] and [documents.length] are read
    off the same value: anything but an array has no [map] method. *)
Definition search (req : CallToolRequest) : M CallToolResult :=
  try_catch
    (let query := search_query req in
     response <- api_get "/api/documents" (search_config query) ;;
     documents <- lift (get_prop (data response) "data") ;;
     match documents with
     | VArr docs =>
         lines <- lift (rmap search_line docs) ;;
         let documentList := join nl lines in
         ret (text_result
                ("Found " ++ nat_to_string (List.length docs)
                 ++ " documents:" ++ nl ++ documentList)
                false)
     | _ => throw TypeError
     end)
    (fun error =>
       console_error "Error searching documents:" error ;;;
       ret (text_result search_failed true)).

(** [{ data: { type: "annotations", attributes: { type, page, content } } }]. *)
Definition annotation_envelope (type page content : value) : value :=
  VObj [("data",
         VObj [("type", VStr "annotations");
               ("attributes",
                VObj [("type", type); ("page", page);
                      ("content", content)])])].

Definition create_failed : string :=
  "Failed to create annotation. Please check your inputs and try again.".

(** The [create_annotation] branch.  Destructuring a missing arguments
    object throws inside the [try]. *)
Definition create_annotation (req : CallToolRequest) : M CallToolResult :=
  try_catch
    (match arguments req with
     | None => throw TypeError
     | Some args =>
         let documentId := field "documentId" args in
         let type := field "type" args in
         let page := field "page" args in
         let content := field "content" args in
         id_text <- lift (to_string documentId) ;;
         response <- api_post (annotations_url id_text)
                       (annotation_envelope type page content) ;;
         annotation <- lift (get_prop (data response) "data") ;;
         type_text <- lift (to_string type) ;;
         annotation_id <- lift (get_prop annotation "id") ;;
         annotation_id_text <- lift (to_string annotation_id) ;;
         ret (text_result
                ("Successfully created " ++ type_text
                 ++ " annotation with ID: " ++ annotation_id_text)
                false)
     end)
    (fun error =>
       console_error "Error creating annotation:" error ;;;
       ret (text_result create_failed true)).

Definition call_tool (req : CallToolRequest) : M CallToolResult :=
  if String.eqb (tool_name req) "search" then search req
  else if String.eqb (tool_name req) "create_annotation"
       then create_annotation req
       else throw (Error "Tool not found").

(** ** [ListToolsRequestSchema] handler *)

(** One entry of the tool catalog: [{ name, description, inputSchema }]. *)
Record Tool : Type := {
  catalog_name : string;
  description : string;
  inputSchema : value
}.

Record ListToolsResult : Type := { tools : list Tool }.

Definition search_schema : value :=
  VObj [("type", VStr "object");
        ("properties",
         VObj [("query",
                VObj [("type", VStr "string");
                      ("description", VStr "Search query")])]);
        ("required", VArr [VStr "query"])].

Definition create_annotation_schema : value :=
  VObj [("type", VStr "object");
        ("properties",
         VObj [("documentId",
                VObj [("type", VStr "string");
                      ("description", VStr "Document ID")]);
               ("type",
                VObj [("type", VStr "string");
                      ("description", VStr "Annotation type");
                      ("enum",
                       VArr [VStr "note"; VStr "highlight"; VStr "ink";
                             VStr "text"; VStr "stamp"; VStr "image";
                             VStr "link"])]);
               ("page",
                VObj [("type", VStr "number");
                      ("description", VStr "Page number (1-based)")]);
               ("content",
                VObj [("type", VStr "object");
                      ("description", VStr "Annotation content")])]);
        ("required",
         VArr [VStr "documentId"; VStr "type"; VStr "page";
               VStr "content"])].

Definition list_tools : M ListToolsResult :=
  ret {| tools :=
           [ {| catalog_name := "search";
                description :=
                  "Search for documents in Nutrient Document Engine";
                inputSchema := search_schema |};
             {| catalog_name := "create_annotation";
                description := "Create an annotation in a document";
                inputSchema := create_annotation_schema |} ] |}.

(** Running a handler against a backend in state [s], with empty logs. *)
Definition run {A} (m : M A) (s : backend_state) : result A * world :=
  m {| engine := s; exchanges := []; console := [] |}.

Definition calls_of (w : world) : list call := map fst (exchanges w).

End Server.

End Adapter.

Import Adapter.

(** ** Start of the process: configuration and the axios instance *)

Module Startup.

(** [process.env] once [dotenv.config] has run. *)
Definition environment : Type := string -> option string.

(** [process.env[key] || ""]. *)
Definition env_or_empty (env : environment) (key : string) : string :=
  match env key with
  | Some v => if String.eqb v "" then "" else v
  | None => ""
  end.

Definition double_quote : string := String (ascii_of_nat 34) EmptyString.

(** The options given to [axios.create]. *)
Record api_config : Type := {
  baseURL : string;
  headers : list (string * string)
}.

(** How the start of the process ends: [process.exit(code)] after the
    lines written to standard error, or a server that is about to connect
    its transport, with the axios configuration it will use. *)
Inductive outcome : Type :=
| Exited (code : nat) (stderr : list string)
| Serving (api : api_config) (stderr : list string).

(** The top level of the module, down to [server.connect]. *)
Definition start (env : environment) : outcome :=
  let BASE_URL := env_or_empty env "DOCUMENT_ENGINE_BASE_URL" in
  let API_SECRET := env_or_empty env "DOCUMENT_ENGINE_API_SECRET" in
  if String.eqb BASE_URL "" then
    Exited 1
      ["Error: DOCUMENT_ENGINE_BASE_URL environment variable is required"]
  else if String.eqb API_SECRET "" then
    Exited 1
      ["Error: DOCUMENT_ENGINE_API_SECRET environment variable is required"]
  else
    Serving
      {| baseURL := BASE_URL;
         headers :=
           [("Authorization",
             "Token token=" ++ double_quote ++ API_SECRET ++ double_quote);
            ("Content-Type", "application/json")] |}
      ["Starting Nutrient Document Engine MCP server...";
       "Base URL: " ++ BASE_URL].

(** What the start of the process wrote to standard error. *)
Definition stderr_of (o : outcome) : list string :=
  match o with
  | Exited _ lines => lines
  | Serving _ lines => lines
  end.

(** A setting that is missing or empty. *)
Definition unset (env : environment) (key : string) : Prop :=
  env key = None \/ env key = Some "".

End Startup.

(** ** A concrete instance: integer numbers and sample backends

    Used for the closed examples below.  Numbers are the integers, printed in
    decimal; [0] is the falsy one. *)

Module Demo.

Definition num_to_string (z : Z) : string :=
  NilEmpty.string_of_int (Z.to_int z).

Definition num_is_falsy (z : Z) : bool := Z.eqb z 0.

Definition jvalue : Type := value Z.

Definition hex_digit (n : nat) : ascii :=
  ascii_of_nat (if Nat.ltb n 10 then 48 + n else 87 + n).

(** One character inside a JSON string literal. *)
Definition escape_char (c : ascii) : string :=
  let n := nat_of_ascii c in
  if Nat.eqb n 34 then "\" ++ String c ""
  else if Nat.eqb n 92 then "\\"
  else if Nat.eqb n 8 then "\b"
  else if Nat.eqb n 9 then "\t"
  else if Nat.eqb n 10 then "\n"
  else if Nat.eqb n 12 then "\f"
  else if Nat.eqb n 13 then "\r"
  else if Nat.ltb n 32
       then "\u00" ++ String (hex_digit (n / 16))
                        (String (hex_digit (n mod 16)) "")
       else String c "".

Fixpoint escape (s : string) : string :=
  match s with
  | EmptyString => EmptyString
  | String c rest => escape_char c ++ escape rest
  end.

Definition quote (s : string) : string :=
  String (ascii_of_nat 34) (escape s) ++ String (ascii_of_nat 34) "".

Fixpoint spaces (n : nat) : string :=
  match n with
  | O => ""
  | S k => " " ++ spaces k
  end.

(** [JSON.stringify(v, null, 2)] at nesting depth [depth].  [None] is the
    [undefined] the language returns for a value that has no JSON text. *)
Fixpoint stringify_at (depth : nat) (v : jvalue) : option string :=
  match v with
  | VUndefined => None
  | VNull => Some "null"
  | VBool true => Some "true"
  | VBool false => Some "false"
  | VNum n => Some (num_to_string n)
  | VStr s => Some (quote s)
  | VArr items =>
      let fix elems (l : list jvalue) : list string :=
        match l with
        | [] => []
        | x :: rest =>
            (spaces (2 * S depth)
             ++ match stringify_at (S depth) x with
                | Some t => t
                | None => "null"
                end) :: elems rest
        end in
      match elems items with
      | [] => Some "[]"
      | parts =>
          Some ("[" ++ nl ++ join ("," ++ nl) parts
                ++ nl ++ spaces (2 * depth) ++ "]")
      end
  | VObj fs =>
      let fix members (l : list (string * jvalue)) : list string :=
        match l with
        | [] => []
        | (k, x) :: rest =>
            match stringify_at (S depth) x with
            | Some t =>
                (spaces (2 * S depth) ++ quote k ++ ": " ++ t)
                :: members rest
            | None => members rest
            end
        end in
      match members fs with
      | [] => Some "{}"
      | parts =>
          Some ("{" ++ nl ++ join ("," ++ nl) parts
                ++ nl ++ spaces (2 * depth) ++ "}")
      end
  end.

(** The handler only prints an object literal, which always has a text. *)
Definition JSON_stringify (v : jvalue) : string :=
  match stringify_at 0 v with
  | Some t => t
  | None => "undefined"
  end.

(** A backend that rejects every request. *)
Definition backend_down (s : unit) (c : call Z) : result jvalue * unit :=
  (Err (AxiosError "Network Error"), s).

Definition doc (id : string) (title : jvalue) : jvalue :=
  VObj [("id", VStr id); ("type", VStr "documents");
        ("attributes", VObj [("title", title); ("page_count", VNum 3%Z)])].

Definition two_documents : jvalue :=
  VArr [doc "abc123" (VStr "Invoice 2024"); doc "def456" VNull].

(** A backend holding two documents; its state counts the annotations
    created so far and numbers the next one. *)
Definition backend_two (created : nat) (c : call Z) : result jvalue * nat :=
  match c with
  | Get url _ =>
      if String.eqb url "/api/documents" then
        (Ok (VObj [("data", two_documents);
                   ("meta",
                    VObj [("pagination",
                           VObj [("next_page", VNum 2%Z)])])]),
         created)
      else if String.eqb url "/api/documents/abc123" then
        (Ok (VObj [("data", doc "abc123" (VStr "Invoice 2024"))]), created)
      else if String.eqb url "/api/documents/abc123/layers" then
        (Ok (VObj [("data",
                    VArr [VObj [("id", VStr "L1");
                                ("attributes",
                                 VObj [("name", VStr "base");
                                       ("visible", VBool true)])]])]),
         created)
      else if String.eqb url "/api/documents/abc123/annotations" then
        (Ok (VObj [("data", VArr [])]), created)
      else (Err (AxiosError "Request failed with status code 404"), created)
  | Post url body =>
      if String.eqb url "/api/documents/abc123/annotations" then
        (Ok (VObj [("data",
                    VObj [("id", VStr ("ann-" ++ nat_to_string (S created)));
                          ("type", VStr "annotations")])]),
         S created)
      else (Err (AxiosError "Request failed with status code 404"), created)
  end.

(** A backend whose document endpoint answers and whose layers endpoint
    rejects. *)
Definition backend_no_layers (s : unit) (c : call Z)
  : result jvalue * unit :=
  match c with
  | Get url _ =>
      if String.eqb url "/api/documents/abc123" then
        (Ok (VObj [("data", doc "abc123" (VStr "Invoice 2024"))]), s)
      else (Err (AxiosError "Request failed with status code 500"), s)
  | Post _ _ => (Err (AxiosError "Request failed with status code 500"), s)
  end.

(** Sample requests. *)

Definition sample_uri : string := "nutrient-document-engine:///abc123".

Definition search_invoice : CallToolRequest Z :=
  {| tool_name := "search";
     arguments := Some [("query", VStr "invoice")] |}.

Definition search_no_arguments : CallToolRequest Z :=
  {| tool_name := "search"; arguments := None |}.

Definition annotate_note : CallToolRequest Z :=
  {| tool_name := "create_annotation";
     arguments :=
       Some [("documentId", VStr "abc123"); ("type", VStr "note");
             ("page", VNum 1%Z);
             ("content", VObj [("text", VStr "hi")])] |}.

(** A [type] outside the enumeration, page [0], and a [content] that is no
    object. *)
Definition annotate_unchecked : CallToolRequest Z :=
  {| tool_name := "create_annotation";
     arguments :=
       Some [("documentId", VStr "abc123"); ("type", VStr "scribble");
             ("page", VNum 0%Z); ("content", VStr "free text")] |}.

Definition unknown_tool : CallToolRequest Z :=
  {| tool_name := "unknown_tool"; arguments := Some [] |}.

(** A backend that answers every request with the same body. *)
Definition backend_const (body : jvalue) (s : unit) (c : call Z)
  : result jvalue * unit :=
  (Ok body, s).

(** A listing whose second entry is [null]. *)
Definition listing_with_null : jvalue :=
  VObj [("data", VArr [doc "abc123" (VStr "Invoice 2024"); VNull]);
        ("meta", VObj [("pagination", VObj [("next_page", VNull)])])].

Definition empty_listing : jvalue :=
  VObj [("data", VArr []);
        ("meta", VObj [("pagination", VObj [("next_page", VStr "p2")])])].

(** The answer to a POST that names no annotation. *)
Definition created_without_id : jvalue :=
  VObj [("data", VObj [("type", VStr "annotations")])].

(** One layer, with a field the adapter does not relay. *)
Definition one_layer : jvalue :=
  VArr [VObj [("id", VStr "L1"); ("links", VArr []);
              ("attributes", VObj [("name", VStr "base")])]].

Definition no_annotations : jvalue := VArr [].

Definition search_invoice_verbose : CallToolRequest Z :=
  {| tool_name := "search";
     arguments := Some [("limit", VNum 5%Z); ("query", VStr "invoice")] |}.

Definition annotate_note_verbose : CallToolRequest Z :=
  {| tool_name := "create_annotation";
     arguments :=
       Some [("author", VStr "me"); ("documentId", VStr "abc123");
             ("type", VStr "note"); ("page", VNum 1%Z);
             ("content", VObj [("text", VStr "hi")])] |}.

Definition annotate_nothing : CallToolRequest Z :=
  {| tool_name := "create_annotation"; arguments := None |}.

(** A [documentId] that has no string form: an object with its own
    [toString] key. *)
Definition annotate_unwritable_document : CallToolRequest Z :=
  {| tool_name := "create_annotation";
     arguments :=
       Some [("documentId", VObj [("toString", VNull)]);
             ("type", VStr "note"); ("page", VNum 1%Z);
             ("content", VObj [("text", VStr "hi")])] |}.

(** A [type] that has no string form. *)
Definition annotate_unwritable_type : CallToolRequest Z :=
  {| tool_name := "create_annotation";
     arguments :=
       Some [("documentId", VStr "abc123");
             ("type", VObj [("toString", VNum 1%Z)]); ("page", VNum 1%Z);
             ("content", VObj [("text", VStr "hi")])] |}.

(** A listing of one document whose title is [false]. *)
Definition listing_with_false_title : jvalue :=
  VObj [("data", VArr [doc "abc123" (VBool false)]);
        ("meta", VObj [("pagination", VObj [("next_page", VNull)])])].

(** The answer of [backend_two] to a listing call. *)
Definition two_documents_body : jvalue :=
  VObj [("data", two_documents);
        ("meta", VObj [("pagination", VObj [("next_page", VNum 2%Z)])])].

(** An environment with the base URL and the given secret set. *)
Definition env_with_secret (secret : string) : Startup.environment :=
  fun key =>
    if String.eqb key "DOCUMENT_ENGINE_BASE_URL"
    then Some "http://localhost:5000"
    else if String.eqb key "DOCUMENT_ENGINE_API_SECRET" then Some secret
    else None.

Definition list_resources {S} (b : S -> call Z -> result jvalue * S) :=
  list_resources num_to_string num_is_falsy b.
Definition read_resource {S} (b : S -> call Z -> result jvalue * S) :=
  read_resource JSON_stringify b.
Definition call_tool {S} (b : S -> call Z -> result jvalue * S) :=
  call_tool num_to_string num_is_falsy b.

End Demo.

(** ** Shapes the properties speak of *)

Section Shapes.

Variable number : Type.
Variable num_to_string : number -> string.
Variable num_is_falsy : number -> bool.

Local Abbreviation value := (value number).
Local Abbreviation to_string := (to_string num_to_string).
Local Abbreviation display_name := (display_name num_to_string num_is_falsy).
Local Abbreviation truthy := (truthy num_is_falsy).

(** The form of one line of the [search] text. *)
Definition line_of (doc : value) (line : string) : Prop :=
  exists shown shown_text id id_text,
    display_name doc = Ok shown /\ to_string shown = Ok shown_text /\
    get_prop doc "id" = Ok id /\ to_string id = Ok id_text /\
    line = shown_text ++ " (ID: " ++ id_text ++ ")".

(** An answer after which the handler cannot go on: the call was rejected,
    or its body is [undefined] or [null], so that reading [.data] of it
    throws. *)
Definition stops_handler (answer : result value) : Prop :=
  (exists e, answer = Err e) \/ answer = Ok VUndefined \/ answer = Ok VNull.

(** The display rule: the title when it is truthy, and [Document <id>]
    otherwise, that is when the title is absent ([undefined], [null]),
    the empty string, or another falsy value ([false], a falsy number). *)
Definition shown_name (title : value) (id_text : string) : value :=
  if truthy title then title else VStr ("Document " ++ id_text).

(** An entry of a backend listing together with what the handlers read in
    it: its title, the string form of its id, and the string form of the
    name shown for it. *)
Record listed : Type := {
  listed_doc : value;
  listed_title : value;
  listed_id : string;
  listed_text : string
}.

(** [e] describes its entry: the entry has [attributes], their [title] is
    [listed_title e] (read as [undefined] when the key is missing), and its
    [id] has the string form [listed_id e]. *)
Definition describes (e : listed) : Prop :=
  exists attributes id,
    get_prop (listed_doc e) "attributes" = Ok attributes /\
    get_prop attributes "title" = Ok (listed_title e) /\
    get_prop (listed_doc e) "id" = Ok id /\
    to_string id = Ok (listed_id e).

(** The resource [list-resources] is to return for a described entry. *)
Definition listed_resource (e : listed) : Resource number :=
  {| uri := "nutrient-document-engine:///" ++ listed_id e;
     mimeType := "application/pdf";
     name := shown_name (listed_title e) (listed_id e) |}.

(** The line [search] is to print for a described entry. *)
Definition listed_line (e : listed) : string :=
  listed_text e ++ " (ID: " ++ listed_id e ++ ")".

End Shapes.

(** ** Kinds of calls and of entries *)

Section Frames.

Variable number : Type.

Definition is_get (c : call number) : bool :=
  match c with
  | Get _ _ => true
  | Post _ _ => false
  end.

Definition is_post (c : call number) : bool := negb (is_get c).

(** The keys of an object, in order. *)
Definition keys_of (v : value number) : option (list string) :=
  match v with
  | VObj fs => Some (map fst fs)
  | _ => None
  end.

(** A list entry the handlers cannot display: anything that is not an
    object, or an object whose [attributes] is missing or [null]. *)
Definition lacks_attributes (doc : value number) : bool :=
  match doc with
  | VObj fs =>
      match field "attributes" fs with
      | VUndefined | VNull => true
      | _ => false
      end
  | _ => true
  end.

End Frames.

(** * Properties *)

(** ** Strings *)

Lemma prefix_app (p s : string) : String.prefix p (p ++ s) = true.
Proof.
  induction p as [|c p IH]; simpl.
  - now destruct s.
  - destruct (ascii_dec c c) as [_|ne]; [exact IH | now elim ne].
Qed.

Lemma drop_chars_app (p s : string) :
  drop_chars (String.length p) (p ++ s) = s.
Proof. induction p as [|c p IH]; simpl; [reflexivity | exact IH]. Qed.


Lemma replace_first_unfold (pat repl s : string) :
  replace_first pat repl s =
  if String.prefix pat s then repl ++ drop_chars (String.length pat) s
  else match s with
       | EmptyString => EmptyString
       | String c rest => String c (replace_first pat repl rest)
       end.
Proof. destruct s; reflexivity. Qed.

(** A string that starts with the pattern loses exactly that prefix. *)
Lemma replace_first_at_head (pat repl s : string) :
  replace_first pat repl (pat ++ s) = repl ++ s.
Proof.
  rewrite replace_first_unfold, prefix_app, drop_chars_app. reflexivity.
Qed.




(** ** Traversals *)

Lemma rmap_Forall2 {A B} (f : A -> result B) (xs : list A) (ys : list B) :
  rmap f xs = Ok ys -> Forall2 (fun x y => f x = Ok y) xs ys.
Proof.
  revert ys; induction xs as [|x xs IH]; simpl; intros ys H.
  - injection H as <-. constructor.
  - destruct (f x) as [y|e] eqn:Fx; [|discriminate].
    destruct (rmap f xs) as [ys'|e]; [|discriminate].
    injection H as <-. constructor; [exact Fx | now apply IH].
Qed.

Section Properties.

Variable number : Type.
Variable num_to_string : number -> string.
Variable num_is_falsy : number -> bool.
Variable JSON_stringify : value number -> string.
Variable backend_state : Type.
Variable backend :
  backend_state -> call number -> result (value number) * backend_state.

Local Abbreviation value := (value number).
Local Abbreviation to_string := (to_string num_to_string).
Local Abbreviation truthy := (truthy num_is_falsy).
Local Abbreviation display_name := (display_name num_to_string num_is_falsy).
Local Abbreviation resource_of_doc :=
  (resource_of_doc num_to_string num_is_falsy).
Local Abbreviation search_line := (search_line num_to_string num_is_falsy).
Local Abbreviation next_cursor_of := (next_cursor_of num_is_falsy).
Local Abbreviation list_query_params := (list_query_params number).
Local Abbreviation line_of := (line_of num_to_string num_is_falsy).
Local Abbreviation stops_handler := (@stops_handler number).
Local Abbreviation shown_name := (shown_name num_is_falsy).
Local Abbreviation describes := (describes num_to_string).
Local Abbreviation listed_resource := (listed_resource num_is_falsy).
Local Abbreviation listed := (listed number).
Local Abbreviation list_resources :=
  (list_resources num_to_string num_is_falsy backend).
Local Abbreviation read_resource := (read_resource JSON_stringify backend).
Local Abbreviation search := (search num_to_string num_is_falsy backend).
Local Abbreviation create_annotation :=
  (create_annotation num_to_string backend).
Local Abbreviation call_tool :=
  (call_tool num_to_string num_is_falsy backend).
Local Abbreviation list_tools := (@list_tools number backend_state).

(** Unfolds the monad so that a handler becomes a nest of case analyses on
    what the backend answers and on what each expression evaluates to. *)
Ltac unfold_handler :=
  unfold run, calls_of, Adapter.list_resources, Adapter.read_resource,
    Adapter.search, Adapter.create_annotation, try_catch, bind, api_get,
    api_post, request, lift, ret, throw, console_error; simpl.

(** Splits on the scrutinee of an innermost remaining [match]. *)
Ltac split_match :=
  match goal with
  | |- context [match ?x with _ => _ end] =>
      lazymatch x with
      | context [match _ with _ => _ end] => fail
      | _ => destruct x eqn:?; simpl in *; try discriminate
      end
  end.

(** ** Dispatch *)

Lemma call_tool_search (req : CallToolRequest number) :
  tool_name req = "search" -> call_tool req = search req.
Proof. unfold Adapter.call_tool. now intros ->. Qed.

Lemma call_tool_create_annotation (req : CallToolRequest number) :
  tool_name req = "create_annotation" ->
  call_tool req = create_annotation req.
Proof. unfold Adapter.call_tool. now intros ->. Qed.

(** C6.  A call-tool request whose name is neither [search] nor
    [create_annotation] throws [Error("Tool not found")]: it returns no
    result, flagged or not, and the backend is not contacted (the logs of
    exchanges and of console lines stay empty). *)
Theorem call_tool_unknown_raises (req : CallToolRequest number)
    (s : backend_state) :
  tool_name req <> "search" ->
  tool_name req <> "create_annotation" ->
  run (call_tool req) s =
  (Err (Error "Tool not found"),
   {| engine := s; exchanges := []; console := [] |}).
Proof.
  intros H1 H2. unfold Adapter.call_tool.
  apply String.eqb_neq in H1, H2. now rewrite H1, H2.
Qed.

(** ** The [search] tool *)

(** The exchanges of a [search] call: one GET on the listing endpoint,
    carrying whatever [query] evaluated to. *)
Lemma search_exchanges (req : CallToolRequest number) (s : backend_state) :
  let c := Get "/api/documents" (search_config (search_query req)) in
  exchanges (snd (run (search req) s)) = [(c, fst (backend s c))].
Proof.
  unfold_handler.
  destruct (backend s _) as [[body|e] s']; simpl; [|reflexivity].
  repeat split_match; reflexivity.
Qed.

(** [search] always returns a result. *)
Lemma search_returns (req : CallToolRequest number) (s : backend_state) :
  exists res, fst (run (search req) s) = Ok res.
Proof.
  unfold_handler.
  destruct (backend s _) as [[body|e] s']; simpl; [|eauto].
  repeat split_match; eauto.
Qed.

(** A rejected listing call turns into the flagged apology. *)
Lemma search_backend_failure (req : CallToolRequest number)
    (s : backend_state) (e : error) :
  fst (backend s (Get "/api/documents" (search_config (search_query req))))
  = Err e ->
  run (search req) s =
  (Ok (text_result search_failed true),
   {| engine :=
        snd (backend s
               (Get "/api/documents" (search_config (search_query req))));
      exchanges :=
        [(Get "/api/documents" (search_config (search_query req)), Err e)];
      console := [("Error searching documents:", e)] |}).
Proof.
  unfold_handler.
  destruct (backend s _) as [[body|e'] s']; simpl; intros H;
    [discriminate H | now injection H as ->].
Qed.

(** What an unflagged [search] result is made of. *)
Lemma search_success (req : CallToolRequest number) (s : backend_state)
    (res : CallToolResult) (w : world number backend_state) :
  run (search req) s = (Ok res, w) ->
  isError res = false ->
  exists body docs lines,
    exchanges w =
      [(Get "/api/documents" (search_config (search_query req)), Ok body)] /\
    get_prop body "data" = Ok (VArr docs) /\
    rmap search_line docs = Ok lines /\
    res = text_result
            ("Found " ++ nat_to_string (List.length docs) ++ " documents:"
             ++ nl ++ join nl lines) false.
Proof.
  unfold_handler.
  destruct (backend s _) as [[body|e] s']; simpl.
  - destruct (get_prop body "data") as [documents|e] eqn:D; simpl.
    + destruct documents; simpl;
        try (intros H; injection H as <- <-; discriminate).
      destruct (rmap _ items) as [lines|e] eqn:L; simpl;
        intros H; injection H as <- <-; [|discriminate].
      intros _. exists body, items, lines. auto.
    + intros H; injection H as <- <-; discriminate.
  - intros H; injection H as <- <-; discriminate.
Qed.

Lemma search_line_form (doc : value) (line : string) :
  search_line doc = Ok line -> line_of doc line.
Proof.
  unfold Adapter.search_line, line_of, rbind.
  destruct (display_name doc) as [shown|] eqn:E1; [|discriminate].
  destruct (to_string shown) as [shown_text|] eqn:E2; [|discriminate].
  destruct (get_prop doc "id") as [id|] eqn:E3; [|discriminate].
  destruct (to_string id) as [id_text|] eqn:E4; [|discriminate].
  intros H; injection H as <-.
  exists shown, shown_text, id, id_text. auto.
Qed.

(** C8.  When [search] returns an unflagged result, the backend answered
    the listing call with an array of [n] documents under [data], and the
    text is [Found n documents:], a newline, and one line per document, of
    the form [<title or fallback> (ID: <id>)], the lines joined by newlines
    in the order of the array. *)
Theorem search_success_text (req : CallToolRequest number)
    (s : backend_state) (res : CallToolResult)
    (w : world number backend_state) :
  tool_name req = "search" ->
  run (call_tool req) s = (Ok res, w) ->
  isError res = false ->
  exists body docs lines,
    exchanges w =
      [(Get "/api/documents" (search_config (search_query req)), Ok body)] /\
    get_prop body "data" = Ok (VArr docs) /\
    Forall2 line_of docs lines /\
    content res =
      [ {| content_type := "text";
           text := "Found " ++ nat_to_string (List.length docs)
                   ++ " documents:" ++ nl ++ join nl lines |} ].
Proof.
  intros Hname Hrun Hflag. rewrite (call_tool_search _ Hname) in Hrun.
  destruct (search_success _ _ Hrun Hflag)
    as (body & docs & lines & Hx & Hd & Hl & ->).
  exists body, docs, lines.
  split; [exact Hx|]. split; [exact Hd|]. split; [|reflexivity].
  apply rmap_Forall2 in Hl. clear - Hl.
  induction Hl as [|doc line docs lines Hline _ IH]; constructor;
    [now apply search_line_form | exact IH].
Qed.

(** ** The [create_annotation] tool *)

Lemma create_annotation_returns (req : CallToolRequest number)
    (s : backend_state) :
  exists res, fst (run (create_annotation req) s) = Ok res.
Proof.
  unfold_handler. destruct (arguments req) as [args|]; simpl; [|eauto].
  destruct (to_string _) as [d|]; simpl; [|eauto].
  destruct (backend s _) as [[body|e] s']; simpl; [|eauto].
  repeat split_match; eauto.
Qed.

(** With an arguments object whose [documentId] has a string form, exactly
    one exchange takes place: the POST of the envelope. *)
Lemma create_annotation_exchanges (req : CallToolRequest number)
    (s : backend_state) (args : list (string * value)) (d : string) :
  arguments req = Some args ->
  to_string (field "documentId" args) = Ok d ->
  let c := Post (annotations_url d)
             (annotation_envelope (field "type" args) (field "page" args)
                (field "content" args)) in
  exchanges (snd (run (create_annotation req) s)) = [(c, fst (backend s c))].
Proof.
  intros Ha Hd. unfold_handler. rewrite Ha; simpl. rewrite Hd; simpl.
  destruct (backend s _) as [[body|e] s']; simpl; [|reflexivity].
  repeat split_match; reflexivity.
Qed.

(** Without one, nothing is sent and the flagged apology comes back. *)
Lemma create_annotation_no_arguments (req : CallToolRequest number)
    (s : backend_state) :
  arguments req = None ->
  run (create_annotation req) s =
  (Ok (text_result create_failed true),
   {| engine := s; exchanges := [];
      console := [("Error creating annotation:", TypeError)] |}).
Proof. intros Ha. unfold_handler. now rewrite Ha. Qed.

Lemma create_annotation_bad_document_id (req : CallToolRequest number)
    (s : backend_state) (args : list (string * value)) (e : error) :
  arguments req = Some args ->
  to_string (field "documentId" args) = Err e ->
  run (create_annotation req) s =
  (Ok (text_result create_failed true),
   {| engine := s; exchanges := [];
      console := [("Error creating annotation:", e)] |}).
Proof.
  intros Ha Hd. unfold_handler. rewrite Ha; simpl. now rewrite Hd.
Qed.

(** A rejected POST turns into the flagged apology. *)
Lemma create_annotation_backend_failure (req : CallToolRequest number)
    (s : backend_state) (args : list (string * value)) (d : string)
    (e : error) :
  arguments req = Some args ->
  to_string (field "documentId" args) = Ok d ->
  fst (backend s
         (Post (annotations_url d)
            (annotation_envelope (field "type" args) (field "page" args)
               (field "content" args)))) = Err e ->
  fst (run (create_annotation req) s) = Ok (text_result create_failed true).
Proof.
  intros Ha Hd. unfold_handler. rewrite Ha; simpl. rewrite Hd; simpl.
  destruct (backend s _) as [[body|e'] s']; simpl; intros H;
    [discriminate H | reflexivity].
Qed.


(** When the backend accepts the POST and names the new annotation, the
    confirmation comes back unflagged. *)
Lemma create_annotation_completes (req : CallToolRequest number)
    (s : backend_state) (args : list (string * value)) (d : string)
    (body annotation id : value) (type_text id_text : string) :
  arguments req = Some args ->
  to_string (field "documentId" args) = Ok d ->
  fst (backend s
         (Post (annotations_url d)
            (annotation_envelope (field "type" args) (field "page" args)
               (field "content" args)))) = Ok body ->
  get_prop body "data" = Ok annotation ->
  to_string (field "type" args) = Ok type_text ->
  get_prop annotation "id" = Ok id ->
  to_string id = Ok id_text ->
  fst (run (create_annotation req) s) =
  Ok (text_result
        ("Successfully created " ++ type_text ++ " annotation with ID: "
         ++ id_text) false).
Proof.
  intros Ha Hd. unfold_handler. rewrite Ha; simpl. rewrite Hd; simpl.
  destruct (backend s _) as [[body'|e'] s']; simpl; intros H;
    [injection H as -> | discriminate H].
  intros -> -> -> ->. reflexivity.
Qed.


(** C10, as the code has it.  [create_annotation] checks none of its
    arguments against the declared schema, and never throws.  For every
    arguments object whose [documentId] has a string form, exactly one POST
    is issued and its body holds [type], [page] and [content] as they are
    (a [type] outside the enumeration, a [page] that is no 1-based number,
    missing keys); when [type] has a string form too, nothing fails
    locally: an accepted POST whose answer names the annotation gives the
    unflagged confirmation.  The only local errors come from string
    conversion: a [documentId] without a string form stops the call before
    any POST, and a [type] without one turns an accepted POST into the
    flagged apology. *)
Theorem create_annotation_unvalidated (req : CallToolRequest number)
    (s : backend_state) (args : list (string * value)) :
  tool_name req = "create_annotation" ->
  arguments req = Some args ->
  let envelope :=
    VObj [("data",
           VObj [("type", VStr "annotations");
                 ("attributes",
                  VObj [("type", field "type" args);
                        ("page", field "page" args);
                        ("content", field "content" args)])])] in
  let apology :=
    text_result
      "Failed to create annotation. Please check your inputs and try again."
      true in
  (exists res, fst (run (call_tool req) s) = Ok res) /\
  (forall d,
     to_string (field "documentId" args) = Ok d ->
     calls_of (snd (run (call_tool req) s)) =
       [Post ("/api/documents/" ++ d ++ "/annotations") envelope] /\
     (forall type_text body annotation id id_text,
        to_string (field "type" args) = Ok type_text ->
        fst (backend s
               (Post ("/api/documents/" ++ d ++ "/annotations") envelope))
        = Ok body ->
        get_prop body "data" = Ok annotation ->
        get_prop annotation "id" = Ok id ->
        to_string id = Ok id_text ->
        fst (run (call_tool req) s) =
        Ok (text_result
              ("Successfully created " ++ type_text
               ++ " annotation with ID: " ++ id_text) false)) /\
     (forall e body annotation,
        to_string (field "type" args) = Err e ->
        fst (backend s
               (Post ("/api/documents/" ++ d ++ "/annotations") envelope))
        = Ok body ->
        get_prop body "data" = Ok annotation ->
        fst (run (call_tool req) s) = Ok apology)) /\
  (forall e,
     to_string (field "documentId" args) = Err e ->
     run (call_tool req) s =
     (Ok apology,
      {| engine := s; exchanges := [];
         console := [("Error creating annotation:", e)] |})).
Proof.
  intros Hname Ha envelope apology.
  rewrite (call_tool_create_annotation _ Hname).
  split; [apply create_annotation_returns | split].
  - intros d Hd. split; [|split].
    + unfold calls_of.
      now rewrite (create_annotation_exchanges req s Ha Hd).
    + intros type_text body annotation id id_text Ht Hb H1 H2 H3.
      exact (create_annotation_completes req s Ha Hd Hb H1 Ht H2 H3).
    + intros e body annotation Ht Hb H1.
      unfold_handler. rewrite Ha; simpl. rewrite Hd; simpl.
      change (Post (annotations_url d)
                (annotation_envelope (field "type" args) (field "page" args)
                   (field "content" args)))
        with (Post ("/api/documents/" ++ d ++ "/annotations") envelope).
      destruct (backend s _) as [[body'|e'] s']; simpl in Hb;
        [injection Hb as -> | discriminate Hb]. simpl.
      rewrite H1. simpl. rewrite Ht. reflexivity.
  - intros e Hd. exact (create_annotation_bad_document_id req s Ha Hd).
Qed.

(** ** Failures of the two tools *)

(** C5.  A [search] or [create_annotation] call never throws: it always
    returns a result.  When a backend call of the invocation was rejected,
    that result has its error flag set and carries the fixed apology of the
    tool as its only text. *)
Theorem tool_failure_is_flagged_result (req : CallToolRequest number)
    (s : backend_state) :
  tool_name req = "search" \/ tool_name req = "create_annotation" ->
  exists res,
    fst (run (call_tool req) s) = Ok res /\
    (Exists (fun x => is_ok (snd x) = false)
       (exchanges (snd (run (call_tool req) s))) ->
     res = text_result
             (if String.eqb (tool_name req) "search"
              then "Failed to search documents. Please try again."
              else "Failed to create annotation. Please check your inputs and try again.")
             true).
Proof.
  intros [Hname | Hname].
  - rewrite (call_tool_search _ Hname), Hname. simpl.
    destruct (search_returns req s) as [res Hres]. exists res.
    split; [exact Hres|]. rewrite search_exchanges. intros Hex.
    apply Exists_cons in Hex. destruct Hex as [Hex | Hex];
      [|now apply Exists_nil in Hex]. simpl in Hex.
    destruct (fst (backend s _)) as [body|e] eqn:Hb; [discriminate|].
    rewrite (search_backend_failure _ _ Hb) in Hres. simpl in Hres.
    now injection Hres as <-.
  - rewrite (call_tool_create_annotation _ Hname), Hname. simpl.
    destruct (create_annotation_returns req s) as [res Hres]. exists res.
    split; [exact Hres|]. intros Hex.
    destruct (arguments req) as [args|] eqn:Ha.
    + destruct (to_string (field "documentId" args)) as [d|e] eqn:Hd.
      * rewrite (create_annotation_exchanges req s Ha Hd) in Hex.
        apply Exists_cons in Hex. destruct Hex as [Hex | Hex];
          [|now apply Exists_nil in Hex]. simpl in Hex.
        destruct (fst (backend s _)) as [body|e] eqn:Hb; [discriminate|].
        rewrite (create_annotation_backend_failure req s Ha Hd Hb) in Hres.
        now injection Hres as <-.
      * rewrite (create_annotation_bad_document_id req s Ha Hd) in Hres.
        simpl in Hres. now injection Hres as <-.
    + rewrite (create_annotation_no_arguments req s Ha) in Hres.
      simpl in Hres. now injection Hres as <-.
Qed.

(** C9.  [search] checks nothing before it calls the backend: when the
    arguments object is missing, or has no [query] key, the GET on
    [/api/documents] is still issued, and it is the only call; its filter
    carries [query: undefined]. *)
Theorem search_without_query_calls_backend (req : CallToolRequest number)
    (s : backend_state) :
  tool_name req = "search" ->
  (arguments req = None \/
   exists args, arguments req = Some args /\ lookup "query" args = None) ->
  calls_of (snd (run (call_tool req) s)) =
  [Get "/api/documents" (search_config VUndefined)].
Proof.
  intros Hname Hargs. rewrite (call_tool_search _ Hname).
  assert (Hq : search_query req = VUndefined).
  { unfold search_query, field.
    destruct Hargs as [-> | (args & -> & ->)]; reflexivity. }
  unfold calls_of. rewrite search_exchanges, Hq. reflexivity.
Qed.

(** ** [read-resource] *)

(** The three ways a [read-resource] call can unfold. *)
Lemma read_resource_shape (req : ReadResourceRequest) (s : backend_state) :
  let id := documentId req in
  let g1 := Get (document_url id) (@VUndefined number) in
  let g2 := Get (layers_url id) (@VUndefined number) in
  let g3 := Get (annotations_url id) (@VUndefined number) in
  let out := run (read_resource req) s in
  (exists a1,
     exchanges (snd out) = [(g1, a1)] /\ stops_handler a1 /\
     fst out = Err (Error "Failed to read document")) \/
  (exists b1 a2,
     exchanges (snd out) = [(g1, Ok b1); (g2, a2)] /\ stops_handler a2 /\
     fst out = Err (Error "Failed to read document")) \/
  (exists b1 b2 a3,
     exchanges (snd out) = [(g1, Ok b1); (g2, Ok b2); (g3, a3)] /\
     (fst out = Err (Error "Failed to read document") \/
      exists b3 res, a3 = Ok b3 /\ fst out = Ok res)).
Proof.
  unfold stops_handler. unfold_handler.
  destruct (backend s _) as [[b1|e1] s1]; simpl;
    [|left; eexists; eauto 6].
  destruct (get_prop b1 "data") as [document|] eqn:D1; simpl;
    [|left; eexists; split; [reflexivity|]; split; [|reflexivity];
      destruct b1; try discriminate; auto].
  destruct (backend s1 _) as [[b2|e2] s2]; simpl;
    [|right; left; do 2 eexists; eauto 6].
  destruct (get_prop b2 "data") as [layers|] eqn:D2; simpl;
    [|right; left; do 2 eexists; split; [reflexivity|];
      split; [|reflexivity]; destruct b2; try discriminate; auto].
  right; right.
  destruct (backend s2 _) as [[b3|e3] s3]; simpl;
    [|do 3 eexists; eauto].
  destruct (get_prop b3 "data") as [annotations|]; simpl;
    [|do 3 eexists; eauto].
  destruct (document_info _ _ _) as [info|]; simpl;
    do 3 eexists; eauto 6.
Qed.

(** C1, as the code has it.  A [read-resource] call issues the three GETs
    (document, layers, annotations) in that order and stops at the first
    one that is rejected: it issues one, two or three calls, every call
    but the last issued one was answered, and fewer than three are issued
    only when the last one was rejected or came back without a body.  It
    ends in one of two ways: it throws [Error("Failed to read document")],
    or it returns a result, and then all three calls were issued and
    answered.  Whenever an issued call is rejected the outcome is that
    error; no partial result exists. *)
Theorem read_resource_calls_then_abort (req : ReadResourceRequest)
    (s : backend_state) :
  let id := documentId req in
  let g1 := Get (document_url id) (@VUndefined number) in
  let g2 := Get (layers_url id) (@VUndefined number) in
  let g3 := Get (annotations_url id) (@VUndefined number) in
  let out := run (read_resource req) s in
  let answered := fun x : call number * result value =>
                    is_ok (snd x) = true in
  (calls_of (snd out) = [g1] \/ calls_of (snd out) = [g1; g2] \/
   calls_of (snd out) = [g1; g2; g3]) /\
  Forall answered (removelast (exchanges (snd out))) /\
  (List.length (exchanges (snd out)) < 3 ->
   exists earlier c a,
     exchanges (snd out) = (earlier ++ [(c, a)])%list /\ stops_handler a) /\
  (Exists (fun x => is_ok (snd x) = false) (exchanges (snd out)) ->
   fst out = Err (Error "Failed to read document")) /\
  (forall res,
     fst out = Ok res ->
     calls_of (snd out) = [g1; g2; g3] /\
     Forall answered (exchanges (snd out))) /\
  (fst out = Err (Error "Failed to read document") \/
   exists res, fst out = Ok res).
Proof.
  intros id g1 g2 g3 out answered.
  destruct (read_resource_shape req s)
    as [(a1 & Hx & Hs & Hr)
       | [(b1 & a2 & Hx & Hs & Hr)
         | (b1 & b2 & a3 & Hx & Hr)]];
    fold id g1 g2 g3 out in Hx, Hr; unfold calls_of; rewrite Hx; simpl;
    (split; [|split; [|split; [|split; [|split]]]]).
  - auto.
  - constructor.
  - intros _. exists [], g1, a1. auto.
  - auto.
  - intros res Hres; rewrite Hr in Hres; discriminate.
  - auto.
  - auto.
  - repeat constructor.
  - intros _. exists [(g1, Ok b1)], g2, a2. auto.
  - auto.
  - intros res Hres; rewrite Hr in Hres; discriminate.
  - auto.
  - auto.
  - repeat constructor.
  - intros H. exfalso. lia.
  - intros Hex. destruct Hr as [Hr | (b3 & res & -> & Hr)]; [exact Hr|].
    exfalso.
    repeat (apply Exists_cons in Hex; destruct Hex as [Hex|Hex];
            [discriminate|]).
    now apply Exists_nil in Hex.
  - intros res Hres. destruct Hr as [Hr | (b3 & res' & -> & Hr)];
      [rewrite Hr in Hres; discriminate|].
    split; [reflexivity | repeat constructor].
  - destruct Hr as [Hr | (b3 & res & -> & Hr)]; eauto.
Qed.


(** ** [list-resources] *)

(** The exchanges of a [list-resources] call: one GET on the listing
    endpoint with the query parameters built from the request. *)
Lemma list_resources_exchanges (req : ListResourcesRequest)
    (s : backend_state) :
  let c := Get "/api/documents" (VObj [("params", list_query_params req)]) in
  exchanges (snd (run (list_resources req) s)) = [(c, fst (backend s c))].
Proof.
  unfold_handler.
  destruct (backend s _) as [[body|e] s']; simpl; [|reflexivity].
  repeat split_match; reflexivity.
Qed.

(** What a [list-resources] result is made of. *)
Lemma list_resources_success (req : ListResourcesRequest)
    (s : backend_state) (res : ListResourcesResult number)
    (w : world number backend_state) :
  run (list_resources req) s = (Ok res, w) ->
  exists body docs,
    fst (backend s
           (Get "/api/documents" (VObj [("params", list_query_params req)])))
    = Ok body /\
    get_prop body "data" = Ok (VArr docs) /\
    rmap resource_of_doc docs = Ok (resources res) /\
    next_cursor_of body = Ok (nextCursor res).
Proof.
  unfold_handler.
  destruct (backend s _) as [[body|e] s']; simpl; [|discriminate].
  destruct (get_prop body "data") as [documents|] eqn:D; simpl;
    [|discriminate].
  destruct documents; simpl; try discriminate.
  destruct (rmap _ items) as [mapped|] eqn:R; simpl; [|discriminate].
  destruct (Adapter.next_cursor_of _ body) as [next|] eqn:N; simpl;
    [|discriminate].
  intros H; injection H as <- <-. exists body, items. auto.
Qed.

(** The outcome of a [list-resources] call that the backend rejects. *)
Lemma list_resources_backend_failure (req : ListResourcesRequest)
    (s : backend_state) (e : error) :
  fst (backend s
         (Get "/api/documents" (VObj [("params", list_query_params req)])))
  = Err e ->
  fst (run (list_resources req) s) = Err (Error "Failed to list documents").
Proof.
  unfold_handler.
  destruct (backend s _) as [[body|e'] s']; simpl; intros H;
    [discriminate H | reflexivity].
Qed.

(** C2, as the code has it.  A [list-resources] call issues one GET on
    [/api/documents].  A cursor that is present and not the empty string is
    sent as it is as the [page] query parameter; without a cursor, or with
    the empty string as cursor, no [page] parameter is sent.  When the call
    returns a result, its [nextCursor] is the [next_page] of the backend's
    pagination metadata if that value is truthy, and [undefined]
    otherwise. *)
Theorem list_resources_cursor (req : ListResourcesRequest)
    (s : backend_state) :
  let c := Get "/api/documents" (VObj [("params", list_query_params req)]) in
  let out := run (list_resources req) s in
  calls_of (snd out) = [c] /\
  (forall cur,
     list_params req = Some {| cursor := Some cur |} ->
     cur <> "" ->
     list_query_params req = VObj [("page", VStr cur)]) /\
  (list_params req = None \/
   list_params req = Some {| cursor := None |} \/
   list_params req = Some {| cursor := Some "" |} ->
   list_query_params req = VObj []) /\
  (forall res,
     fst out = Ok res ->
     exists body meta pagination next_page,
       fst (backend s c) = Ok body /\
       get_prop body "meta" = Ok meta /\
       get_prop meta "pagination" = Ok pagination /\
       get_prop pagination "next_page" = Ok next_page /\
       nextCursor res = if truthy next_page then next_page else VUndefined).
Proof.
  intros c out. split; [|split; [|split]].
  - unfold calls_of, out. now rewrite list_resources_exchanges.
  - intros cur Hp Hne. unfold Adapter.list_query_params, truthy_cursor.
    rewrite Hp. simpl. apply String.eqb_neq in Hne. now rewrite Hne.
  - unfold Adapter.list_query_params, truthy_cursor.
    intros [-> | [-> | ->]]; reflexivity.
  - intros res Hres. destruct out as [r w] eqn:Hrun. simpl in Hres. subst r.
    destruct (list_resources_success _ _ Hrun)
      as (body & docs & Hb & _ & _ & Hn).
    exists body. unfold Adapter.next_cursor_of, rbind in Hn.
    destruct (get_prop body "meta") as [meta|] eqn:E1; [|discriminate].
    destruct (get_prop meta "pagination") as [pagination|] eqn:E2;
      [|discriminate].
    destruct (get_prop pagination "next_page") as [next_page|] eqn:E3;
      [|discriminate].
    injection Hn as <-. exists meta, pagination, next_page.
    repeat split; assumption || reflexivity.
Qed.

(** ** Display names *)

(** The entry's own resource, with the name the code computes. *)
Lemma resource_of_doc_rule (doc : value) (r : Resource number) :
  resource_of_doc doc = Ok r ->
  exists id id_text,
    get_prop doc "id" = Ok id /\ to_string id = Ok id_text /\
    uri r = uri_prefix ++ id_text /\ mimeType r = "application/pdf".
Proof.
  unfold Adapter.resource_of_doc, rbind.
  destruct (get_prop doc "id") as [id|] eqn:E1; [|discriminate].
  destruct (to_string id) as [id_text|] eqn:E2; [|discriminate].
  destruct (display_name doc) as [shown|] eqn:E3; [|discriminate].
  intros H; injection H as <-. simpl.
  exists id, id_text. auto.
Qed.

Lemma display_name_described (e : listed) :
  describes e ->
  display_name (listed_doc e)
  = Ok (shown_name (listed_title e) (listed_id e)).
Proof.
  intros (attributes & id & H1 & H2 & H3 & H4).
  unfold Adapter.display_name, shown_name, rbind.
  rewrite H1, H2. destruct (truthy (listed_title e)); [reflexivity|].
  now rewrite H3, H4.
Qed.

Lemma resource_of_described (e : listed) :
  describes e -> resource_of_doc (listed_doc e) = Ok (listed_resource e).
Proof.
  intros He. pose proof (display_name_described He) as Hn.
  destruct He as (attributes & id & H1 & H2 & H3 & H4).
  unfold Adapter.resource_of_doc, rbind. now rewrite H3, H4, Hn.
Qed.

Lemma search_line_described (e : listed) :
  describes e ->
  to_string (shown_name (listed_title e) (listed_id e))
  = Ok (listed_text e) ->
  search_line (listed_doc e) = Ok (listed_line e).
Proof.
  intros He Ht. pose proof (display_name_described He) as Hn.
  destruct He as (attributes & id & H1 & H2 & H3 & H4).
  unfold Adapter.search_line, rbind. now rewrite Hn, Ht, H3, H4.
Qed.

Lemma rmap_map {A B C} (f : A -> result B) (g : C -> A) (h : C -> B)
    (xs : list C) :
  Forall (fun x => f (g x) = Ok (h x)) xs ->
  rmap f (map g xs) = Ok (map h xs).
Proof.
  induction 1 as [|x xs Hx _ IH]; simpl; [reflexivity|].
  now rewrite Hx, IH.
Qed.

(** C4, as the code has it.  The name shown for a document is its title
    when the title is truthy, and exactly [Document <id>] otherwise: when
    the title is absent ([undefined], [null]), the empty string, or
    another falsy value such as [false].  For a backend answer whose
    [data] is an array of entries that have [attributes] and an id with a
    string form, [list-resources] returns one resource per entry, in
    order, with that name; and [search] returns the count and one line per
    entry, in order, made of the string form of that name and the id. *)
Theorem display_name_by_title (s : backend_state) (body : value)
    (entries : list listed) :
  get_prop body "data" = Ok (VArr (map (@listed_doc number) entries)) ->
  Forall describes entries ->
  (forall req next,
     fst (backend s
            (Get "/api/documents"
               (VObj [("params", list_query_params req)]))) = Ok body ->
     next_cursor_of body = Ok next ->
     fst (run (list_resources req) s) =
     Ok {| resources := map listed_resource entries;
           nextCursor := next |}) /\
  (forall req,
     tool_name req = "search" ->
     fst (backend s
            (Get "/api/documents" (search_config (search_query req))))
     = Ok body ->
     Forall
       (fun e =>
          to_string (shown_name (listed_title e) (listed_id e))
          = Ok (listed_text e)) entries ->
     fst (run (call_tool req) s) =
     Ok (text_result
           ("Found " ++ nat_to_string (List.length entries)
            ++ " documents:" ++ nl
            ++ join nl (map (@listed_line number) entries)) false)) /\
  (forall id_text,
     shown_name VUndefined id_text = VStr ("Document " ++ id_text) /\
     shown_name VNull id_text = VStr ("Document " ++ id_text) /\
     shown_name (VStr "") id_text = VStr ("Document " ++ id_text) /\
     shown_name (VBool false) id_text = VStr ("Document " ++ id_text) /\
     (forall t, t <> "" -> shown_name (VStr t) id_text = VStr t) /\
     (forall title, truthy title = true -> shown_name title id_text = title)).
Proof.
  intros Hd He. split; [|split].
  - intros req next Hb Hn. unfold_handler.
    destruct (backend s _) as [[body'|e] s']; simpl in Hb;
      [injection Hb as -> | discriminate Hb]. simpl.
    rewrite Hd. simpl.
    rewrite (rmap_map resource_of_doc (@listed_doc number) listed_resource).
    + simpl. rewrite Hn. reflexivity.
    + eapply Forall_impl; [|exact He].
      intros e. apply resource_of_described.
  - intros req Hname Hb Ht. rewrite (call_tool_search _ Hname).
    unfold_handler.
    destruct (backend s _) as [[body'|e] s']; simpl in Hb;
      [injection Hb as -> | discriminate Hb]. simpl.
    rewrite Hd. simpl.
    rewrite (rmap_map search_line (@listed_doc number)
               (@listed_line number)).
    + simpl. now rewrite length_map.
    + clear - He Ht. induction He as [|e es H _ IH]; constructor.
      * apply search_line_described; [exact H|].
        now apply Forall_inv in Ht.
      * apply IH. now apply Forall_inv_tail in Ht.
  - intros id_text. unfold shown_name. simpl.
    repeat split; try reflexivity.
    + intros t Hne. apply String.eqb_neq in Hne. now rewrite Hne.
    + intros title Ht. now rewrite Ht.
Qed.

(** * Further properties of the handlers *)

(** ** The catalog and the dispatch *)

(** X2.  [list-tools] answers without touching the backend or the console,
    and its catalog names exactly the tools that [call-tool] dispatches: a
    call returns a result (flagged or not) when its name is in the catalog,
    and throws when it is not. *)
Theorem catalog_matches_dispatch (s : backend_state) :
  exists catalog,
    run list_tools s =
    (Ok catalog, {| engine := s; exchanges := []; console := [] |}) /\
    forall (req : CallToolRequest number) (s' : backend_state),
      In (tool_name req) (map (@catalog_name number) (tools catalog)) <->
      exists res, fst (run (call_tool req) s') = Ok res.
Proof.
  eexists. split; [reflexivity|]. intros req s'. simpl. split.
  - intros [H | [H | []]]; symmetry in H.
    + rewrite (call_tool_search _ H). apply search_returns.
    + rewrite (call_tool_create_annotation _ H).
      apply create_annotation_returns.
  - intros [res H].
    destruct (string_dec (tool_name req) "search") as [E1|N1]; [auto|].
    destruct (string_dec (tool_name req) "create_annotation") as [E2|N2];
      [auto|].
    exfalso. unfold Adapter.call_tool in H.
    apply String.eqb_neq in N1, N2. rewrite N1, N2 in H. discriminate H.
Qed.

(** ** Reads and writes *)

(** X3.  Only [create_annotation] writes.  Every backend call made by
    [list-resources], by [read-resource] and by a [call-tool] under any
    other name is a GET; [create_annotation] never issues a GET, and
    issues at most one POST. *)
Theorem only_create_annotation_posts (s : backend_state) :
  (forall req,
     forallb (@is_get number)
       (calls_of (snd (run (list_resources req) s))) = true) /\
  (forall req,
     forallb (@is_get number)
       (calls_of (snd (run (read_resource req) s))) = true) /\
  (forall req,
     tool_name req <> "create_annotation" ->
     forallb (@is_get number)
       (calls_of (snd (run (call_tool req) s))) = true) /\
  (forall req,
     tool_name req = "create_annotation" ->
     forallb (@is_post number)
       (calls_of (snd (run (call_tool req) s))) = true /\
     List.length (calls_of (snd (run (call_tool req) s))) <= 1).
Proof.
  split; [|split; [|split]].
  - intros req. unfold calls_of. now rewrite list_resources_exchanges.
  - intros req.
    destruct (read_resource_shape req s)
      as [(a1 & Hx & _) | [(b1 & a2 & Hx & _) | (b1 & b2 & a3 & Hx & _)]];
      unfold calls_of; rewrite Hx; reflexivity.
  - intros req Hn.
    destruct (string_dec (tool_name req) "search") as [E|N].
    + rewrite (call_tool_search _ E). unfold calls_of.
      now rewrite search_exchanges.
    + unfold Adapter.call_tool. apply String.eqb_neq in N, Hn.
      now rewrite N, Hn.
  - intros req Hn. rewrite (call_tool_create_annotation _ Hn).
    destruct (arguments req) as [args|] eqn:Ha.
    + destruct (to_string (field "documentId" args)) as [d|e] eqn:Hd.
      * unfold calls_of.
        rewrite (create_annotation_exchanges req s Ha Hd). simpl. auto.
      * rewrite (create_annotation_bad_document_id req s Ha Hd).
        simpl. auto.
    + rewrite (create_annotation_no_arguments req s Ha). simpl. auto.
Qed.

(** ** More on [list-resources] *)

(** X4.  A [list-resources] call ends in one of two ways.  Either the
    backend answered, a result is returned and nothing is written to the
    console; or it throws [Error("Failed to list documents")], whatever
    went wrong, and writes one console line that holds the cause: the
    backend's own error when the call was rejected. *)
Theorem list_resources_outcome (req : ListResourcesRequest)
    (s : backend_state) :
  let c := Get "/api/documents" (VObj [("params", list_query_params req)]) in
  let out := run (list_resources req) s in
  (exists res body,
     fst out = Ok res /\ console (snd out) = [] /\
     fst (backend s c) = Ok body) \/
  (exists cause,
     fst out = Err (Error "Failed to list documents") /\
     console (snd out) = [("Error listing documents:", cause)] /\
     (forall e, fst (backend s c) = Err e -> cause = e)).
Proof.
  unfold_handler.
  destruct (backend s _) as [[body|e] s']; simpl.
  - destruct (get_prop body "data") as [documents|e1]; simpl;
      [|right; eexists; repeat split; intros; discriminate].
    destruct (js_map documents _) as [mapped|e2]; simpl;
      [|right; eexists; repeat split; intros; discriminate].
    destruct (Adapter.next_cursor_of _ body) as [next|e3]; simpl;
      [|right; eexists; repeat split; intros; discriminate].
    left. eauto.
  - right. exists e. repeat split. intros e' H. now injection H.
Qed.

(** X5.  A [list-resources] result has one resource per element of the
    backend's [data] array, in the same order; each has the uri
    [nutrient-document-engine:///<id>], with the id in its string form,
    and the content type [application/pdf]. *)
Theorem list_resources_one_per_document (req : ListResourcesRequest)
    (s : backend_state) (res : ListResourcesResult number)
    (w : world number backend_state) :
  run (list_resources req) s = (Ok res, w) ->
  exists body docs,
    exchanges w =
      [(Get "/api/documents" (VObj [("params", list_query_params req)]),
        Ok body)] /\
    get_prop body "data" = Ok (VArr docs) /\
    List.length (resources res) = List.length docs /\
    Forall2
      (fun doc r =>
         exists id id_text,
           get_prop doc "id" = Ok id /\ to_string id = Ok id_text /\
           uri r = "nutrient-document-engine:///" ++ id_text /\
           mimeType r = "application/pdf")
      docs (resources res).
Proof.
  intros Hrun.
  destruct (list_resources_success _ _ Hrun)
    as (body & docs & Hb & Hd & Hr & _).
  exists body, docs.
  pose proof (list_resources_exchanges req s) as Hx. simpl in Hx.
  rewrite Hrun, Hb in Hx. simpl in Hx.
  apply rmap_Forall2 in Hr.
  split; [exact Hx|]. split; [exact Hd|]. split.
  - symmetry. eapply Forall2_length; eassumption.
  - clear - Hr. induction Hr as [|doc r docs rs Hdoc _ IH]; constructor;
      [|exact IH].
    exact (resource_of_doc_rule _ Hdoc).
Qed.

(** X6.  What [list-resources] hands out, [read-resource] takes back: for
    every resource of a listing, the document id that [read-resource]
    extracts from its uri is the string form of the id the backend gave for
    that document (also when that id itself contains the uri prefix), and
    the first call of the read goes to [/api/documents/<id>]. *)
Theorem listed_uri_reads_back (req : ListResourcesRequest)
    (s : backend_state) (res : ListResourcesResult number)
    (w : world number backend_state) :
  run (list_resources req) s = (Ok res, w) ->
  exists body docs,
    fst (backend s
           (Get "/api/documents" (VObj [("params", list_query_params req)])))
    = Ok body /\
    get_prop body "data" = Ok (VArr docs) /\
    Forall2
      (fun doc r =>
         exists id id_text,
           get_prop doc "id" = Ok id /\ to_string id = Ok id_text /\
           documentId {| read_uri := uri r |} = id_text /\
           forall s', exists rest,
             calls_of (snd (run (read_resource {| read_uri := uri r |}) s'))
             = Get ("/api/documents/" ++ id_text) VUndefined :: rest)
      docs (resources res).
Proof.
  intros Hrun.
  destruct (list_resources_success _ _ Hrun)
    as (body & docs & Hb & Hd & Hr & _).
  exists body, docs. split; [exact Hb|]. split; [exact Hd|].
  apply rmap_Forall2 in Hr. clear - Hr.
  induction Hr as [|doc r docs rs Hdoc _ IH]; constructor; [|exact IH].
  destruct (resource_of_doc_rule _ Hdoc)
    as (id & id_text & H1 & H2 & H3 & _).
  assert (Hid : documentId {| read_uri := uri r |} = id_text).
  { unfold documentId. simpl. rewrite H3.
    apply (replace_first_at_head uri_prefix "" id_text). }
  exists id, id_text. repeat split; auto.
  intros s'.
  destruct (read_resource_shape {| read_uri := uri r |} s')
    as [(a1 & Hx & _) | [(b1 & a2 & Hx & _) | (b1 & b2 & a3 & Hx & _)]];
    unfold calls_of; rewrite Hx, Hid; simpl; eauto.
Qed.

(** ** Malformed listings *)

Lemma rmap_fails {A B} (f : A -> result B) (bad : A -> bool)
    (xs : list A) :
  (forall x, bad x = true -> exists e, f x = Err e) ->
  existsb bad xs = true ->
  exists e, rmap f xs = Err e.
Proof.
  intros Hbad. induction xs as [|x xs IH]; simpl; [discriminate|].
  intros H. destruct (f x) as [y|e] eqn:Fx; [|eauto].
  destruct (bad x) eqn:Bx.
  - destruct (Hbad x Bx) as [e He]. rewrite He in Fx. discriminate.
  - destruct (IH H) as [e He]. rewrite He. eauto.
Qed.

Lemma display_name_needs_attributes (doc : value) :
  lacks_attributes doc = true -> display_name doc = Err TypeError.
Proof.
  unfold Adapter.display_name.
  destruct doc as [| | | | | |fs]; simpl; try reflexivity.
  destruct (field "attributes" fs); simpl; try discriminate; reflexivity.
Qed.

Lemma resource_of_doc_needs_attributes (doc : value) :
  lacks_attributes doc = true -> exists e, resource_of_doc doc = Err e.
Proof.
  intros H. unfold Adapter.resource_of_doc, rbind.
  destruct (get_prop doc "id") as [id|]; [|eauto].
  destruct (to_string id) as [id_text|]; [|eauto].
  rewrite (display_name_needs_attributes _ H). eauto.
Qed.

Lemma search_line_needs_attributes (doc : value) :
  lacks_attributes doc = true -> exists e, search_line doc = Err e.
Proof.
  intros H. unfold Adapter.search_line, rbind.
  rewrite (display_name_needs_attributes _ H). eauto.
Qed.

(** X7.  One bad entry spoils a whole listing.  When the backend answers
    the listing call with a [data] array in which some entry is not an
    object, or has no [attributes], [list-resources] returns no resource
    at all: it throws [Error("Failed to list documents")]. *)
Theorem list_resources_all_or_nothing (req : ListResourcesRequest)
    (s : backend_state) (body : value) (docs : list value) :
  fst (backend s
         (Get "/api/documents" (VObj [("params", list_query_params req)])))
  = Ok body ->
  get_prop body "data" = Ok (VArr docs) ->
  existsb (@lacks_attributes number) docs = true ->
  fst (run (list_resources req) s) = Err (Error "Failed to list documents").
Proof.
  intros Hb Hd Hbad. unfold_handler.
  destruct (backend s _) as [[body'|e] s']; simpl in Hb;
    [injection Hb as -> | discriminate Hb]. simpl.
  rewrite Hd. simpl.
  destruct (rmap_fails resource_of_doc (@lacks_attributes number) docs
              resource_of_doc_needs_attributes Hbad) as [e He].
  now rewrite He.
Qed.

(** X8.  The same holds of [search]: with such an entry in the answer, the
    result is the flagged apology, although the backend call succeeded, and
    no document line is returned. *)
Theorem search_all_or_nothing (req : CallToolRequest number)
    (s : backend_state) (body : value) (docs : list value) :
  tool_name req = "search" ->
  fst (backend s (Get "/api/documents" (search_config (search_query req))))
  = Ok body ->
  get_prop body "data" = Ok (VArr docs) ->
  existsb (@lacks_attributes number) docs = true ->
  fst (run (call_tool req) s) =
  Ok (text_result "Failed to search documents. Please try again." true).
Proof.
  intros Hn Hb Hd Hbad. rewrite (call_tool_search _ Hn). unfold_handler.
  destruct (backend s _) as [[body'|e] s']; simpl in Hb;
    [injection Hb as -> | discriminate Hb]. simpl.
  rewrite Hd. simpl.
  destruct (rmap_fails search_line (@lacks_attributes number) docs
              search_line_needs_attributes Hbad) as [e He].
  now rewrite He.
Qed.

(** ** More on the [search] tool *)

(** X9.  A search that matches nothing is a success: for an empty [data]
    array the result is unflagged and its text is [Found 0 documents:]
    followed by a newline and nothing else. *)
Theorem search_nothing_found (req : CallToolRequest number)
    (s : backend_state) (body : value) :
  tool_name req = "search" ->
  fst (backend s (Get "/api/documents" (search_config (search_query req))))
  = Ok body ->
  get_prop body "data" = Ok (VArr []) ->
  fst (run (call_tool req) s) =
  Ok (text_result ("Found 0 documents:" ++ nl) false).
Proof.
  intros Hn Hb Hd. rewrite (call_tool_search _ Hn). unfold_handler.
  destruct (backend s _) as [[body'|e] s']; simpl in Hb;
    [injection Hb as -> | discriminate Hb]. simpl.
  rewrite Hd. reflexivity.
Qed.

(** X10.  An answer whose [data] is not an array (missing, [null], an
    object, a string) makes [search] return the flagged apology, although
    the backend call succeeded. *)
Theorem search_needs_an_array (req : CallToolRequest number)
    (s : backend_state) (body documents : value) :
  tool_name req = "search" ->
  fst (backend s (Get "/api/documents" (search_config (search_query req))))
  = Ok body ->
  get_prop body "data" = Ok documents ->
  (forall docs, documents <> VArr docs) ->
  fst (run (call_tool req) s) =
  Ok (text_result "Failed to search documents. Please try again." true).
Proof.
  intros Hn Hb Hd Hna. rewrite (call_tool_search _ Hn). unfold_handler.
  destruct (backend s _) as [[body'|e] s']; simpl in Hb;
    [injection Hb as -> | discriminate Hb]. simpl.
  rewrite Hd. simpl.
  destruct documents; try reflexivity. now elim (Hna items).
Qed.

(** X11.  [search] reads nothing of its request but [query]: two requests
    whose [query] argument is the same (other arguments may differ, and a
    missing arguments object counts as a missing [query]) make the same
    backend call and have the same outcome. *)
Theorem search_reads_query_only (req req' : CallToolRequest number)
    (w : world number backend_state) :
  tool_name req = "search" ->
  tool_name req' = "search" ->
  search_query req = search_query req' ->
  call_tool req w = call_tool req' w.
Proof.
  intros Hn Hn' Hq.
  rewrite (call_tool_search _ Hn), (call_tool_search _ Hn').
  unfold Adapter.search. now rewrite Hq.
Qed.

(** ** More on the [create_annotation] tool *)

(** X12.  [create_annotation] reads nothing of its arguments but the four
    keys [documentId], [type], [page] and [content]: two arguments objects
    that agree on them make the same backend call and have the same
    outcome. *)
Theorem create_annotation_reads_four_keys (req req' : CallToolRequest number)
    (args args' : list (string * value)) (w : world number backend_state) :
  tool_name req = "create_annotation" ->
  tool_name req' = "create_annotation" ->
  arguments req = Some args ->
  arguments req' = Some args' ->
  field "documentId" args = field "documentId" args' ->
  field "type" args = field "type" args' ->
  field "page" args = field "page" args' ->
  field "content" args = field "content" args' ->
  call_tool req w = call_tool req' w.
Proof.
  intros Hn Hn' Ha Ha' H1 H2 H3 H4.
  rewrite (call_tool_create_annotation _ Hn),
    (call_tool_create_annotation _ Hn').
  unfold Adapter.create_annotation. now rewrite Ha, Ha', H1, H2, H3, H4.
Qed.

(** X13.  A [create_annotation] call without an arguments object sends
    nothing to the backend: the result is the flagged apology, the backend
    keeps its state, and the console gets one line with a [TypeError]. *)
Theorem create_annotation_without_arguments (req : CallToolRequest number)
    (s : backend_state) :
  tool_name req = "create_annotation" ->
  arguments req = None ->
  run (call_tool req) s =
  (Ok (text_result
         "Failed to create annotation. Please check your inputs and try again."
         true),
   {| engine := s; exchanges := [];
      console := [("Error creating annotation:", TypeError)] |}).
Proof.
  intros Hn Ha. rewrite (call_tool_create_annotation _ Hn).
  now apply create_annotation_no_arguments.
Qed.

(** X14.  What the backend answers to an accepted POST decides the result.
    If the answer has no [data] (missing or [null]), the result is the
    flagged apology although the POST was accepted.  If [data] is an
    object without an [id], the result is unflagged and its text ends in
    [ID: undefined]. *)
Theorem create_annotation_answer_without_id (req : CallToolRequest number)
    (s : backend_state) (args : list (string * value))
    (d type_text : string) (body : value) :
  tool_name req = "create_annotation" ->
  arguments req = Some args ->
  to_string (field "documentId" args) = Ok d ->
  to_string (field "type" args) = Ok type_text ->
  fst (backend s
         (Post (annotations_url d)
            (annotation_envelope (field "type" args) (field "page" args)
               (field "content" args)))) = Ok body ->
  (get_prop body "data" = Ok VUndefined \/ get_prop body "data" = Ok VNull ->
   fst (run (call_tool req) s) =
   Ok (text_result
         "Failed to create annotation. Please check your inputs and try again."
         true)) /\
  (forall fs,
     get_prop body "data" = Ok (VObj fs) ->
     lookup "id" fs = None ->
     fst (run (call_tool req) s) =
     Ok (text_result
           ("Successfully created " ++ type_text
            ++ " annotation with ID: undefined") false)).
Proof.
  intros Hn Ha Hd Ht Hb. rewrite (call_tool_create_annotation _ Hn).
  unfold_handler. rewrite Ha; simpl. rewrite Hd; simpl.
  destruct (backend s _) as [[body'|e] s']; simpl in Hb;
    [injection Hb as -> | discriminate Hb]. simpl.
  split.
  - intros [H | H]; rewrite H; simpl; rewrite Ht; reflexivity.
  - intros fs H Hid. rewrite H. simpl. rewrite Ht. simpl.
    unfold field. rewrite Hid. reflexivity.
Qed.

(** ** More on [read-resource] *)

Local Abbreviation layer_info := (@layer_info number).
Local Abbreviation annotation_info := (@annotation_info number).
Local Abbreviation document_info := (@document_info number).

(** X15.  When the backend answers all three calls with a body,
    [read-resource] is decided by the assembly of the document info.  If
    that succeeds, the result is one content item that carries the uri of
    the request as it came (also a malformed one), the type
    [application/json] and the pretty-printed info; the backend is left in
    the state after the third call and the console is empty.  If it fails,
    the call throws the generic error and writes the cause to the
    console. *)
Theorem read_resource_answered (req : ReadResourceRequest)
    (s s1 s2 s3 : backend_state)
    (b1 b2 b3 document layers annotations : value) :
  let id := documentId req in
  let g1 := Get (document_url id) (@VUndefined number) in
  let g2 := Get (layers_url id) (@VUndefined number) in
  let g3 := Get (annotations_url id) (@VUndefined number) in
  backend s g1 = (Ok b1, s1) ->
  get_prop b1 "data" = Ok document ->
  backend s1 g2 = (Ok b2, s2) ->
  get_prop b2 "data" = Ok layers ->
  backend s2 g3 = (Ok b3, s3) ->
  get_prop b3 "data" = Ok annotations ->
  run (read_resource req) s =
  match document_info document layers annotations with
  | Ok info =>
      (Ok {| contents :=
               [ {| contents_uri := read_uri req;
                    contents_mimeType := "application/json";
                    contents_text := JSON_stringify info |} ] |},
       {| engine := s3;
          exchanges := [(g1, Ok b1); (g2, Ok b2); (g3, Ok b3)];
          console := [] |})
  | Err e =>
      (Err (Error "Failed to read document"),
       {| engine := s3;
          exchanges := [(g1, Ok b1); (g2, Ok b2); (g3, Ok b3)];
          console := [("Error reading document:", e)] |})
  end.
Proof.
  intros id g1 g2 g3 H1 D1 H2 D2 H3 D3. unfold_handler.
  fold id. fold g1. rewrite H1. simpl. rewrite D1. simpl.
  fold g2. rewrite H2. simpl. rewrite D2. simpl.
  fold g3. rewrite H3. simpl. rewrite D3. simpl.
  destruct (document_info document layers annotations); reflexivity.
Qed.

Lemma rmap_defined {A B} (f : A -> result B) (bad : A -> bool)
    (xs : list A) :
  (forall x, bad x = false -> exists y, f x = Ok y) ->
  existsb bad xs = false ->
  exists ys, rmap f xs = Ok ys.
Proof.
  intros Hok. induction xs as [|x xs IH]; simpl; [eauto|].
  intros H. apply orb_false_iff in H. destruct H as [Hx Hxs].
  destruct (Hok x Hx) as [y Hy]. destruct (IH Hxs) as [ys Hys].
  rewrite Hy, Hys. eauto.
Qed.

Lemma layer_info_defined (layer : value) :
  lacks_attributes layer = false -> exists out, layer_info layer = Ok out.
Proof.
  unfold layer_info. destruct layer as [| | | | | |fs]; simpl;
    try discriminate.
  destruct (field "attributes" fs); simpl; try discriminate; eauto.
Qed.

Lemma layer_info_fails (layer : value) :
  lacks_attributes layer = true -> exists e, layer_info layer = Err e.
Proof.
  unfold layer_info. destruct layer as [| | | | | |fs]; simpl; eauto.
  destruct (field "attributes" fs); simpl; try discriminate; eauto.
Qed.

Lemma annotation_info_defined (annotation : value) :
  lacks_attributes annotation = false ->
  exists out, annotation_info annotation = Ok out.
Proof.
  unfold annotation_info. destruct annotation as [| | | | | |fs]; simpl;
    try discriminate.
  destruct (field "attributes" fs); simpl; try discriminate; eauto.
Qed.

Lemma annotation_info_fails (annotation : value) :
  lacks_attributes annotation = true ->
  exists e, annotation_info annotation = Err e.
Proof.
  unfold annotation_info. destruct annotation as [| | | | | |fs]; simpl;
    eauto.
  destruct (field "attributes" fs); simpl; try discriminate; eauto.
Qed.

(** X16.  The document info can be assembled exactly when the document is
    an object with [attributes], and the layers and the annotations are
    arrays all of whose entries are objects with [attributes].  Nothing
    else is asked of the backend's data: any field may be missing. *)
Theorem document_info_defined_iff (document layers annotations : value) :
  (exists info, document_info document layers annotations = Ok info) <->
  lacks_attributes document = false /\
  exists ls ans,
    layers = VArr ls /\ annotations = VArr ans /\
    existsb (@lacks_attributes number) ls = false /\
    existsb (@lacks_attributes number) ans = false.
Proof.
  split.
  - intros [info H]. unfold document_info, rbind in H.
    assert (Hdoc : lacks_attributes document = false).
    { destruct document as [| | | | | |fs]; simpl in *; try discriminate.
      destruct (field "attributes" fs); simpl in *;
        try discriminate; reflexivity. }
    split; [exact Hdoc|].
    destruct (get_prop document "id"); [|discriminate].
    destruct (get_prop document "attributes") as [attrs|]; [|discriminate].
    destruct (get_prop attrs "title"); [|discriminate].
    destruct (get_prop attrs "page_count"); [|discriminate].
    destruct layers as [| | | | |ls|]; simpl in H; try discriminate.
    destruct (rmap layer_info ls) as [louts|] eqn:Hl; [|discriminate].
    destruct annotations as [| | | | |ans|]; simpl in H; try discriminate.
    destruct (rmap annotation_info ans) as [aouts|] eqn:Han;
      [|discriminate].
    exists ls, ans. repeat split.
    + destruct (existsb (@lacks_attributes number) ls) eqn:E;
        [|reflexivity].
      destruct (rmap_fails layer_info _ ls layer_info_fails E) as [e He].
      rewrite He in Hl. discriminate.
    + destruct (existsb (@lacks_attributes number) ans) eqn:E;
        [|reflexivity].
      destruct (rmap_fails annotation_info _ ans annotation_info_fails E)
        as [e He].
      rewrite He in Han. discriminate.
  - intros (Hdoc & ls & ans & -> & -> & Hl & Han).
    destruct (rmap_defined layer_info _ ls layer_info_defined Hl)
      as [louts Hlo].
    destruct (rmap_defined annotation_info _ ans annotation_info_defined Han)
      as [aouts Hao].
    unfold document_info, rbind. simpl. rewrite Hlo, Hao.
    destruct document as [| | | | | |fs]; simpl in *; try discriminate.
    destruct (field "attributes" fs); simpl in *; try discriminate; eauto.
Qed.

(** X17.  The document info has a fixed shape, whatever the backend sends:
    an object with the keys [id], [title], [pageCount], [layers],
    [annotations] in that order; one layer entry per backend layer and one
    annotation entry per backend annotation; every layer entry has the
    keys [id], [name], [visible] and every annotation entry the keys [id],
    [type], [page], [content], so that any other backend field is left
    out. *)
Theorem document_info_shape (document layers annotations info : value) :
  document_info document layers annotations = Ok info ->
  exists ls ans louts aouts,
    layers = VArr ls /\ annotations = VArr ans /\
    keys_of info =
      Some ["id"; "title"; "pageCount"; "layers"; "annotations"] /\
    get_prop info "layers" = Ok (VArr louts) /\
    get_prop info "annotations" = Ok (VArr aouts) /\
    List.length louts = List.length ls /\
    List.length aouts = List.length ans /\
    Forall (fun out => keys_of out = Some ["id"; "name"; "visible"])
      louts /\
    Forall (fun out => keys_of out = Some ["id"; "type"; "page"; "content"])
      aouts.
Proof.
  unfold document_info, rbind. intros H.
  destruct (get_prop document "id"); [|discriminate].
  destruct (get_prop document "attributes") as [attrs|]; [|discriminate].
  destruct (get_prop attrs "title"); [|discriminate].
  destruct (get_prop attrs "page_count"); [|discriminate].
  destruct layers as [| | | | |ls|]; simpl in H; try discriminate.
  destruct (rmap layer_info ls) as [louts|] eqn:Hl; [|discriminate].
  destruct annotations as [| | | | |ans|]; simpl in H; try discriminate.
  destruct (rmap annotation_info ans) as [aouts|] eqn:Han; [|discriminate].
  injection H as <-. exists ls, ans, louts, aouts.
  apply rmap_Forall2 in Hl, Han.
  repeat split.
  - symmetry. eapply Forall2_length; eassumption.
  - symmetry. eapply Forall2_length; eassumption.
  - clear - Hl. induction Hl as [|x y xs ys Hxy _ IH]; constructor;
      [|exact IH].
    unfold layer_info, rbind in Hxy.
    destruct (get_prop x "id"); [|discriminate].
    destruct (get_prop x "attributes") as [xattrs|]; [|discriminate].
    destruct (get_prop xattrs "name"); [|discriminate].
    destruct (get_prop xattrs "visible"); [|discriminate].
    now injection Hxy as <-.
  - clear - Han. induction Han as [|x y xs ys Hxy _ IH]; constructor;
      [|exact IH].
    unfold annotation_info, rbind in Hxy.
    destruct (get_prop x "id"); [|discriminate].
    destruct (get_prop x "attributes") as [xattrs|]; [|discriminate].
    destruct (get_prop xattrs "type"); [|discriminate].
    destruct (get_prop xattrs "page"); [|discriminate].
    destruct (get_prop xattrs "content"); [|discriminate].
    now injection Hxy as <-.
Qed.

(** ** The console *)

(** X18.  A failure is logged once, a success never.  [read-resource]
    either returns a result and leaves the console alone, or throws the
    generic error after one console line that holds the cause.  [search]
    and [create_annotation] either return an unflagged result and leave
    the console alone, or return their apology after one such line. *)
Theorem failures_are_logged_once (s : backend_state) :
  (forall req,
     let out := run (read_resource req) s in
     (exists res, fst out = Ok res /\ console (snd out) = []) \/
     (exists cause,
        fst out = Err (Error "Failed to read document") /\
        console (snd out) = [("Error reading document:", cause)])) /\
  (forall req,
     let out := run (search req) s in
     (exists res,
        fst out = Ok res /\ isError res = false /\ console (snd out) = []) \/
     (exists cause,
        fst out = Ok (text_result search_failed true) /\
        console (snd out) = [("Error searching documents:", cause)])) /\
  (forall req,
     let out := run (create_annotation req) s in
     (exists res,
        fst out = Ok res /\ isError res = false /\ console (snd out) = []) \/
     (exists cause,
        fst out = Ok (text_result create_failed true) /\
        console (snd out) = [("Error creating annotation:", cause)])).
Proof.
  split; [|split]; intros req out; subst out; unfold_handler.
  - destruct (backend s _) as [[b1|e1] s1]; simpl; [|eauto].
    destruct (get_prop b1 "data"); simpl; [|eauto].
    destruct (backend s1 _) as [[b2|e2] s2]; simpl; [|eauto].
    destruct (get_prop b2 "data"); simpl; [|eauto].
    destruct (backend s2 _) as [[b3|e3] s3]; simpl; [|eauto].
    destruct (get_prop b3 "data"); simpl; [|eauto].
    destruct (Adapter.document_info _ _ _); simpl; eauto.
  - destruct (backend s _) as [[body|e] s']; simpl; [|eauto].
    destruct (get_prop body "data") as [documents|]; simpl; [|eauto].
    destruct documents; simpl; eauto.
    destruct (rmap _ items); simpl; eauto.
  - destruct (arguments req) as [args|]; simpl; [|eauto].
    destruct (to_string (field "documentId" args)); simpl; [|eauto].
    destruct (backend s _) as [[body|e] s']; simpl; [|eauto].
    destruct (get_prop body "data") as [annotation|]; simpl; [|eauto].
    destruct (to_string (field "type" args)); simpl; [|eauto].
    destruct (get_prop annotation "id") as [id|]; simpl; [|eauto].
    destruct (to_string id); simpl; eauto.
Qed.

(** ** Paging *)

(** X19.  A [nextCursor] is always usable.  In a [list-resources] result it
    is [undefined] or a truthy value, never [null], the empty string or
    another falsy token; and when it is a string, a next request that
    passes it as its cursor reaches the backend with exactly that string
    as [page]. *)
Theorem next_cursor_is_usable (req : ListResourcesRequest)
    (s : backend_state) (res : ListResourcesResult number)
    (w : world number backend_state) :
  run (list_resources req) s = (Ok res, w) ->
  (nextCursor res = VUndefined \/ truthy (nextCursor res) = true) /\
  (forall c s',
     nextCursor res = VStr c ->
     calls_of
       (snd (run (list_resources
                    {| list_params := Some {| cursor := Some c |} |}) s'))
     = [Get "/api/documents"
          (VObj [("params", VObj [("page", VStr c)])])]).
Proof.
  intros Hrun.
  destruct (list_resources_success _ _ Hrun) as (body & docs & _ & _ & _ & Hn).
  unfold Adapter.next_cursor_of, rbind in Hn.
  destruct (get_prop body "meta") as [meta|]; [|discriminate].
  destruct (get_prop meta "pagination") as [pagination|]; [|discriminate].
  destruct (get_prop pagination "next_page") as [next_page|];
    [|discriminate].
  injection Hn as Hn.
  assert (Hc : nextCursor res = VUndefined \/ truthy (nextCursor res) = true).
  { rewrite <- Hn. destruct (truthy next_page) eqn:T; auto. }
  split; [exact Hc|].
  intros c s' Hs. unfold calls_of. rewrite list_resources_exchanges. simpl.
  unfold Adapter.list_query_params, truthy_cursor. simpl.
  destruct Hc as [Hc | Hc]; rewrite Hs in Hc; [discriminate|].
  simpl in Hc. destruct (String.eqb c ""); [discriminate | reflexivity].
Qed.

End Properties.

(** * Start of the process *)

Import Startup.

Lemma env_or_empty_unset (env : environment) (key : string) :
  env_or_empty env key = "" <-> unset env key.
Proof.
  unfold env_or_empty, unset. destruct (env key) as [v|]; [|tauto].
  destruct (String.eqb v "") eqn:E.
  - apply String.eqb_eq in E. subst v. tauto.
  - apply String.eqb_neq in E. split; [contradiction|].
    intros [H | H]; [discriminate | injection H as ->; contradiction].
Qed.

Lemma env_or_empty_set (env : environment) (key v : string) :
  env key = Some v -> v <> "" -> env_or_empty env key = v.
Proof.
  intros H Hne. unfold env_or_empty. rewrite H.
  apply String.eqb_neq in Hne. now rewrite Hne.
Qed.

(** X20.  The process serves only with both settings.  If the base URL is
    missing or empty it exits with code 1 after the one line that names
    [DOCUMENT_ENGINE_BASE_URL] (also when the secret is missing too);
    otherwise, if the secret is missing or empty, it exits with code 1
    after the one line that names [DOCUMENT_ENGINE_API_SECRET]; otherwise
    it serves, with the base URL as given and the [Authorization] header
    [Token token=<secret in double quotes>]. *)
Theorem start_requires_both_settings (env : environment) :
  (unset env "DOCUMENT_ENGINE_BASE_URL" /\
   start env =
   Exited 1
     ["Error: DOCUMENT_ENGINE_BASE_URL environment variable is required"]) \/
  (~ unset env "DOCUMENT_ENGINE_BASE_URL" /\
   unset env "DOCUMENT_ENGINE_API_SECRET" /\
   start env =
   Exited 1
     ["Error: DOCUMENT_ENGINE_API_SECRET environment variable is required"])
  \/
  (exists url secret,
     env "DOCUMENT_ENGINE_BASE_URL" = Some url /\ url <> "" /\
     env "DOCUMENT_ENGINE_API_SECRET" = Some secret /\ secret <> "" /\
     start env =
     Serving
       {| baseURL := url;
          headers :=
            [("Authorization",
              "Token token=" ++ double_quote ++ secret ++ double_quote);
             ("Content-Type", "application/json")] |}
       ["Starting Nutrient Document Engine MCP server...";
        "Base URL: " ++ url]).
Proof.
  unfold start.
  destruct (String.eqb (env_or_empty env "DOCUMENT_ENGINE_BASE_URL") "")
    eqn:B.
  - left. apply String.eqb_eq in B. apply env_or_empty_unset in B. auto.
  - right. apply String.eqb_neq in B.
    assert (HB : ~ unset env "DOCUMENT_ENGINE_BASE_URL").
    { intros H. apply B. now apply env_or_empty_unset. }
    destruct (String.eqb (env_or_empty env "DOCUMENT_ENGINE_API_SECRET") "")
      eqn:K.
    + left. apply String.eqb_eq in K. apply env_or_empty_unset in K. auto.
    + right. apply String.eqb_neq in K.
      unfold env_or_empty in *.
      destruct (env "DOCUMENT_ENGINE_BASE_URL") as [url|];
        [|now elim B].
      destruct (env "DOCUMENT_ENGINE_API_SECRET") as [secret|];
        [|now elim K].
      destruct (String.eqb url "") eqn:Eu; [now elim B|].
      destruct (String.eqb secret "") eqn:Es; [now elim K|].
      apply String.eqb_neq in Eu, Es.
      exists url, secret. repeat split; auto.
Qed.

(** X21.  What the start writes to standard error does not depend on the
    value of the secret: two environments that differ only in a (set)
    secret produce the same lines. *)
Theorem start_log_hides_secret (env env' : environment) :
  (forall key,
     key <> "DOCUMENT_ENGINE_API_SECRET" -> env key = env' key) ->
  ~ unset env "DOCUMENT_ENGINE_API_SECRET" ->
  ~ unset env' "DOCUMENT_ENGINE_API_SECRET" ->
  stderr_of (start env) = stderr_of (start env').
Proof.
  intros Hsame Hk Hk'. unfold start.
  assert (HB : env_or_empty env "DOCUMENT_ENGINE_BASE_URL"
               = env_or_empty env' "DOCUMENT_ENGINE_BASE_URL").
  { unfold env_or_empty. rewrite Hsame; [reflexivity | discriminate]. }
  rewrite <- HB.
  destruct (String.eqb (env_or_empty env "DOCUMENT_ENGINE_BASE_URL") "");
    [reflexivity|].
  destruct (String.eqb (env_or_empty env "DOCUMENT_ENGINE_API_SECRET") "")
    eqn:K;
    [apply String.eqb_eq in K; apply env_or_empty_unset in K;
     contradiction|].
  destruct (String.eqb (env_or_empty env' "DOCUMENT_ENGINE_API_SECRET") "")
    eqn:K';
    [apply String.eqb_eq in K'; apply env_or_empty_unset in K';
     contradiction|].
  reflexivity.
Qed.

(** * Closed instances

    The theorems above, and the two places where the code departs from the
    specification, on the sample backends of [Demo]. *)

Example read_resource_sample :
  calls_of
    (snd (run (Demo.read_resource Demo.backend_two
                 {| read_uri := Demo.sample_uri |}) 0)) =
  [Get "/api/documents/abc123" VUndefined;
   Get "/api/documents/abc123/layers" VUndefined;
   Get "/api/documents/abc123/annotations" VUndefined] /\
  is_ok (fst (run (Demo.read_resource Demo.backend_two
                     {| read_uri := Demo.sample_uri |}) 0)) = true.
Proof. split; reflexivity. Qed.

Example list_resources_sample :
  fst (run (Demo.list_resources Demo.backend_two
              {| list_params := Some {| cursor := Some "2" |} |}) 0) =
  Ok {| resources :=
          [ {| uri := "nutrient-document-engine:///abc123";
               mimeType := "application/pdf";
               name := VStr "Invoice 2024" |};
            {| uri := "nutrient-document-engine:///def456";
               mimeType := "application/pdf";
               name := VStr "Document def456" |} ];
        nextCursor := VNum 2%Z |}.
Proof. reflexivity. Qed.

Example search_sample :
  fst (run (Demo.call_tool Demo.backend_two Demo.search_invoice) 0) =
  Ok (text_result
        ("Found 2 documents:" ++ nl ++ "Invoice 2024 (ID: abc123)" ++ nl
         ++ "Document def456 (ID: def456)") false).
Proof. reflexivity. Qed.

Example create_annotation_sample :
  fst (run (Demo.call_tool Demo.backend_two Demo.annotate_note) 0) =
  Ok (text_result "Successfully created note annotation with ID: ann-1"
        false).
Proof. reflexivity. Qed.

(** C1, counterexample.  When the backend rejects the first call, a
    [read-resource] invocation issues that one call and not three; when it
    rejects the second, two.  Both invocations throw the generic error. *)
Lemma read_resource_fewer_than_three_calls :
  (calls_of
     (snd (run (Demo.read_resource Demo.backend_down
                  {| read_uri := Demo.sample_uri |}) tt)) =
   [Get "/api/documents/abc123" VUndefined] /\
   fst (run (Demo.read_resource Demo.backend_down
               {| read_uri := Demo.sample_uri |}) tt) =
   Err (Error "Failed to read document")) /\
  (calls_of
     (snd (run (Demo.read_resource Demo.backend_no_layers
                  {| read_uri := Demo.sample_uri |}) tt)) =
   [Get "/api/documents/abc123" VUndefined;
    Get "/api/documents/abc123/layers" VUndefined] /\
   fst (run (Demo.read_resource Demo.backend_no_layers
               {| read_uri := Demo.sample_uri |}) tt) =
   Err (Error "Failed to read document")).
Proof. repeat split; reflexivity. Qed.

(** C2, counterexample.  A request that provides the empty string as its
    cursor gets a GET with no [page] parameter at all: the cursor is not
    forwarded. *)
Lemma empty_cursor_not_forwarded :
  calls_of
    (snd (run (Demo.list_resources Demo.backend_two
                 {| list_params := Some {| cursor := Some "" |} |}) 0)) =
  [Get "/api/documents" (VObj [("params", VObj [])])] /\
  calls_of
    (snd (run (Demo.list_resources Demo.backend_two
                 {| list_params := Some {| cursor := Some "" |} |}) 0)) <>
  [Get "/api/documents" (VObj [("params", VObj [("page", VStr "")])])].
Proof. split; [reflexivity | discriminate]. Qed.

(** C5, witness: the backend is down and [search] returns its apology. *)
Lemma tool_failure_is_flagged_result_witness :
  fst (run (Demo.call_tool Demo.backend_down Demo.search_no_arguments) tt) =
  Ok (text_result "Failed to search documents. Please try again." true).
Proof.
  destruct (@tool_failure_is_flagged_result Z Demo.num_to_string
              Demo.num_is_falsy unit Demo.backend_down Demo.search_no_arguments
              tt (or_introl eq_refl)) as (res & Hres & Hflag).
  unfold Demo.call_tool. rewrite Hres. f_equal. apply Hflag.
  constructor. reflexivity.
Defined.

(** C6, witness: [Demo.unknown_tool] throws and the backend is not called. *)
Lemma call_tool_unknown_raises_witness :
  run (Demo.call_tool Demo.backend_two Demo.unknown_tool) 0 =
  (Err (Error "Tool not found"),
   {| engine := 0; exchanges := []; console := [] |}).
Proof.
  apply (@call_tool_unknown_raises Z Demo.num_to_string Demo.num_is_falsy
           nat Demo.backend_two Demo.unknown_tool 0); discriminate.
Defined.

(** C9, witness: [search] without an arguments object. *)
Lemma search_without_query_calls_backend_witness :
  calls_of (snd (run (Demo.call_tool Demo.backend_two Demo.search_no_arguments) 0))
  = [Get "/api/documents" (search_config VUndefined)].
Proof.
  apply (@search_without_query_calls_backend Z Demo.num_to_string
           Demo.num_is_falsy nat Demo.backend_two Demo.search_no_arguments 0);
    [reflexivity | left; reflexivity].
Defined.

(** C8, witness: the two documents of the sample backend. *)
Lemma search_success_text_witness :
  exists body docs lines,
    exchanges (snd (run (Demo.call_tool Demo.backend_two Demo.search_invoice) 0))
    = [(Get "/api/documents" (search_config (VStr "invoice")), Ok body)] /\
    get_prop body "data" = Ok (VArr docs) /\
    Forall2 (line_of Demo.num_to_string Demo.num_is_falsy) docs lines /\
    content
      (text_result
         ("Found 2 documents:" ++ nl ++ "Invoice 2024 (ID: abc123)" ++ nl
          ++ "Document def456 (ID: def456)") false) =
    [ {| content_type := "text";
         text := "Found " ++ nat_to_string (List.length docs)
                 ++ " documents:" ++ nl ++ join nl lines |} ].
Proof.
  apply (@search_success_text Z Demo.num_to_string Demo.num_is_falsy nat
           Demo.backend_two Demo.search_invoice 0); reflexivity.
Defined.


(** C10, counterexample.  With a [documentId] that has no string form, no
    POST is issued at all, so nothing is forwarded, and a local
    [TypeError] gives the flagged apology.  With a [type] that has no
    string form, the POST is issued and accepted (the backend has created
    its first annotation), and a local [TypeError] still gives the flagged
    apology. *)
Lemma create_annotation_local_type_errors :
  run (Demo.call_tool Demo.backend_two Demo.annotate_unwritable_document) 0 =
  (Ok (text_result
         "Failed to create annotation. Please check your inputs and try again."
         true),
   {| engine := 0; exchanges := [];
      console := [("Error creating annotation:", TypeError)] |}) /\
  run (Demo.call_tool Demo.backend_two Demo.annotate_unwritable_type) 0 =
  (Ok (text_result
         "Failed to create annotation. Please check your inputs and try again."
         true),
   {| engine := 1;
      exchanges :=
        [(Post "/api/documents/abc123/annotations"
            (VObj [("data",
                    VObj [("type", VStr "annotations");
                          ("attributes",
                           VObj [("type", VObj [("toString", VNum 1%Z)]);
                                 ("page", VNum 1%Z);
                                 ("content",
                                  VObj [("text", VStr "hi")])])])]),
          Ok (VObj [("data",
                     VObj [("id", VStr "ann-1");
                           ("type", VStr "annotations")])]))];
      console := [("Error creating annotation:", TypeError)] |}).
Proof. split; reflexivity. Qed.

(** C10, witness: values no schema would accept are posted as they are,
    and the accepted POST is confirmed. *)
Lemma create_annotation_unvalidated_witness :
  calls_of
    (snd (run (Demo.call_tool Demo.backend_two Demo.annotate_unchecked) 0))
  = [Post "/api/documents/abc123/annotations"
       (VObj [("data",
               VObj [("type", VStr "annotations");
                     ("attributes",
                      VObj [("type", VStr "scribble"); ("page", VNum 0%Z);
                            ("content", VStr "free text")])])])] /\
  fst (run (Demo.call_tool Demo.backend_two Demo.annotate_unchecked) 0) =
  Ok (text_result "Successfully created scribble annotation with ID: ann-1"
        false).
Proof.
  destruct (@create_annotation_unvalidated Z Demo.num_to_string
              Demo.num_is_falsy nat Demo.backend_two Demo.annotate_unchecked
              0 _ eq_refl eq_refl) as (_ & H & _).
  destruct (H "abc123" eq_refl) as (Hcalls & Hok & _).
  split; [exact Hcalls|].
  exact (Hok "scribble" _ _ _ "ann-1" eq_refl eq_refl eq_refl eq_refl
           eq_refl).
Defined.

(** C4, counterexample.  A document whose title is [false] has a title
    that is neither absent nor empty, and yet it is listed, and found,
    under the fallback name and not under its title. *)
Lemma false_title_gets_fallback :
  fst (run (Demo.list_resources
              (Demo.backend_const Demo.listing_with_false_title)
              {| list_params := None |}) tt) =
  Ok {| resources :=
          [ {| uri := "nutrient-document-engine:///abc123";
               mimeType := "application/pdf";
               name := VStr "Document abc123" |} ];
        nextCursor := VUndefined |} /\
  fst (run (Demo.call_tool
              (Demo.backend_const Demo.listing_with_false_title)
              Demo.search_invoice) tt) =
  Ok (text_result
        ("Found 1 documents:" ++ nl ++ "Document abc123 (ID: abc123)")
        false).
Proof. split; reflexivity. Qed.

(** C4, witness: the two documents of the sample backend, one with a
    title and one whose title is [null]. *)
Lemma display_name_by_title_witness :
  fst (run (Demo.list_resources Demo.backend_two
              {| list_params := None |}) 0) =
  Ok {| resources :=
          [ {| uri := "nutrient-document-engine:///abc123";
               mimeType := "application/pdf";
               name := VStr "Invoice 2024" |};
            {| uri := "nutrient-document-engine:///def456";
               mimeType := "application/pdf";
               name := VStr "Document def456" |} ];
        nextCursor := VNum 2%Z |} /\
  fst (run (Demo.call_tool Demo.backend_two Demo.search_invoice) 0) =
  Ok (text_result
        ("Found 2 documents:" ++ nl ++ "Invoice 2024 (ID: abc123)" ++ nl
         ++ "Document def456 (ID: def456)") false).
Proof.
  destruct (@display_name_by_title Z Demo.num_to_string Demo.num_is_falsy
              nat Demo.backend_two 0 Demo.two_documents_body
              [ {| listed_doc := Demo.doc "abc123" (VStr "Invoice 2024");
                   listed_title := VStr "Invoice 2024";
                   listed_id := "abc123";
                   listed_text := "Invoice 2024" |};
                {| listed_doc := Demo.doc "def456" VNull;
                   listed_title := VNull;
                   listed_id := "def456";
                   listed_text := "Document def456" |} ]
              eq_refl)
    as (Hlist & Hsearch & _).
  - repeat constructor; do 2 eexists; repeat split; reflexivity.
  - split.
    + exact (Hlist {| list_params := None |} _ eq_refl eq_refl).
    + apply (Hsearch Demo.search_invoice eq_refl eq_refl).
      repeat constructor.
Defined.


(** ** Instances of the further properties *)

Example start_samples :
  start (Demo.env_with_secret "s3cret") =
  Serving
    {| baseURL := "http://localhost:5000";
       headers :=
         [("Authorization",
           "Token token=" ++ double_quote ++ "s3cret" ++ double_quote);
          ("Content-Type", "application/json")] |}
    ["Starting Nutrient Document Engine MCP server...";
     "Base URL: http://localhost:5000"] /\
  start (Demo.env_with_secret "") =
  Exited 1
    ["Error: DOCUMENT_ENGINE_API_SECRET environment variable is required"] /\
  start (fun _ => None) =
  Exited 1
    ["Error: DOCUMENT_ENGINE_BASE_URL environment variable is required"].
Proof. repeat split. Qed.

(** X5, witness: the two documents of the sample backend. *)
Lemma list_resources_one_per_document_witness :
  exists body docs,
    exchanges
      (snd (run (Demo.list_resources Demo.backend_two
                   {| list_params := None |}) 0)) =
    [(Get "/api/documents" (VObj [("params", VObj [])]), Ok body)] /\
    get_prop body "data" = Ok (VArr docs) /\
    2 = List.length docs /\
    Forall2
      (fun doc (r : Resource Z) =>
         exists id id_text,
           get_prop doc "id" = Ok id /\
           to_string Demo.num_to_string id = Ok id_text /\
           uri r = "nutrient-document-engine:///" ++ id_text /\
           mimeType r = "application/pdf")
      docs
      [ {| uri := "nutrient-document-engine:///abc123";
           mimeType := "application/pdf";
           name := VStr "Invoice 2024" |};
        {| uri := "nutrient-document-engine:///def456";
           mimeType := "application/pdf";
           name := VStr "Document def456" |} ].
Proof.
  exact (@list_resources_one_per_document Z Demo.num_to_string
           Demo.num_is_falsy nat Demo.backend_two {| list_params := None |}
           0 _ _ eq_refl).
Defined.

(** X6, witness: the same listing, read back. *)
Lemma listed_uri_reads_back_witness :
  exists body docs,
    fst (Demo.backend_two 0
           (Get "/api/documents" (VObj [("params", VObj [])]))) = Ok body /\
    get_prop body "data" = Ok (VArr docs) /\
    Forall2
      (fun doc (r : Resource Z) =>
         exists id id_text,
           get_prop doc "id" = Ok id /\
           to_string Demo.num_to_string id = Ok id_text /\
           documentId {| read_uri := uri r |} = id_text /\
           forall s', exists rest,
             calls_of
               (snd (run (Demo.read_resource Demo.backend_two
                            {| read_uri := uri r |}) s'))
             = Get ("/api/documents/" ++ id_text) VUndefined :: rest)
      docs
      [ {| uri := "nutrient-document-engine:///abc123";
           mimeType := "application/pdf";
           name := VStr "Invoice 2024" |};
        {| uri := "nutrient-document-engine:///def456";
           mimeType := "application/pdf";
           name := VStr "Document def456" |} ].
Proof.
  exact (@listed_uri_reads_back Z Demo.num_to_string Demo.num_is_falsy
           Demo.JSON_stringify nat Demo.backend_two
           {| list_params := None |} 0 _ _ eq_refl).
Defined.

(** X7, witness: a listing with a [null] entry. *)
Lemma list_resources_all_or_nothing_witness :
  fst (run (Demo.list_resources (Demo.backend_const Demo.listing_with_null)
              {| list_params := None |}) tt) =
  Err (Error "Failed to list documents").
Proof.
  exact (@list_resources_all_or_nothing Z Demo.num_to_string
           Demo.num_is_falsy unit (Demo.backend_const Demo.listing_with_null)
           {| list_params := None |} tt _ _ eq_refl eq_refl eq_refl).
Defined.

(** X8, witness: the same listing, searched. *)
Lemma search_all_or_nothing_witness :
  fst (run (Demo.call_tool (Demo.backend_const Demo.listing_with_null)
              Demo.search_invoice) tt) =
  Ok (text_result "Failed to search documents. Please try again." true).
Proof.
  exact (@search_all_or_nothing Z Demo.num_to_string Demo.num_is_falsy unit
           (Demo.backend_const Demo.listing_with_null) Demo.search_invoice
           tt _ _ eq_refl eq_refl eq_refl eq_refl).
Defined.

(** X9, witness: an empty listing. *)
Lemma search_nothing_found_witness :
  fst (run (Demo.call_tool (Demo.backend_const Demo.empty_listing)
              Demo.search_invoice) tt) =
  Ok (text_result ("Found 0 documents:" ++ nl) false).
Proof.
  exact (@search_nothing_found Z Demo.num_to_string Demo.num_is_falsy unit
           (Demo.backend_const Demo.empty_listing) Demo.search_invoice
           tt _ eq_refl eq_refl eq_refl).
Defined.

(** X10, witness: an answer with no [data] at all. *)
Lemma search_needs_an_array_witness :
  fst (run (Demo.call_tool (Demo.backend_const (VObj []))
              Demo.search_invoice) tt) =
  Ok (text_result "Failed to search documents. Please try again." true).
Proof.
  apply (@search_needs_an_array Z Demo.num_to_string Demo.num_is_falsy unit
           (Demo.backend_const (VObj [])) Demo.search_invoice
           tt (VObj []) VUndefined eq_refl eq_refl eq_refl).
  intros docs H. discriminate H.
Defined.

(** X11, witness: an extra [limit] argument changes nothing. *)
Lemma search_reads_query_only_witness :
  run (Demo.call_tool Demo.backend_two Demo.search_invoice) 0 =
  run (Demo.call_tool Demo.backend_two Demo.search_invoice_verbose) 0.
Proof.
  exact (@search_reads_query_only Z Demo.num_to_string Demo.num_is_falsy nat
           Demo.backend_two Demo.search_invoice Demo.search_invoice_verbose
           _ eq_refl eq_refl eq_refl).
Defined.

(** X12, witness: an extra [author] argument changes nothing. *)
Lemma create_annotation_reads_four_keys_witness :
  run (Demo.call_tool Demo.backend_two Demo.annotate_note) 0 =
  run (Demo.call_tool Demo.backend_two Demo.annotate_note_verbose) 0.
Proof.
  exact (@create_annotation_reads_four_keys Z Demo.num_to_string
           Demo.num_is_falsy nat Demo.backend_two Demo.annotate_note
           Demo.annotate_note_verbose _ _ _ eq_refl eq_refl eq_refl eq_refl
           eq_refl eq_refl eq_refl eq_refl).
Defined.

(** X13, witness. *)
Lemma create_annotation_without_arguments_witness :
  run (Demo.call_tool Demo.backend_two Demo.annotate_nothing) 7 =
  (Ok (text_result
         "Failed to create annotation. Please check your inputs and try again."
         true),
   {| engine := 7; exchanges := [];
      console := [("Error creating annotation:", TypeError)] |}).
Proof.
  exact (@create_annotation_without_arguments Z Demo.num_to_string
           Demo.num_is_falsy nat Demo.backend_two Demo.annotate_nothing 7
           eq_refl eq_refl).
Defined.

(** X14, witness: the backend accepts the POST and names no annotation. *)
Lemma create_annotation_answer_without_id_witness :
  fst (run (Demo.call_tool (Demo.backend_const Demo.created_without_id)
              Demo.annotate_note) tt) =
  Ok (text_result "Successfully created note annotation with ID: undefined"
        false).
Proof.
  destruct (@create_annotation_answer_without_id Z Demo.num_to_string
              Demo.num_is_falsy unit
              (Demo.backend_const Demo.created_without_id)
              Demo.annotate_note tt _ "abc123" "note"
              Demo.created_without_id
              eq_refl eq_refl eq_refl eq_refl eq_refl) as [_ H].
  exact (H [("type", VStr "annotations")] eq_refl eq_refl).
Defined.

(** X15, witness: the sample document. *)
Lemma read_resource_answered_witness :
  is_ok (fst (run (Demo.read_resource Demo.backend_two
                     {| read_uri := Demo.sample_uri |}) 0)) = true /\
  console
    (snd (run (Demo.read_resource Demo.backend_two
                 {| read_uri := Demo.sample_uri |}) 0)) = [].
Proof.
  unfold Demo.read_resource.
  rewrite (@read_resource_answered Z Demo.JSON_stringify nat
             Demo.backend_two {| read_uri := Demo.sample_uri |} 0 0 0 0
             _ _ _ _ _ _ eq_refl eq_refl eq_refl eq_refl eq_refl eq_refl).
  split; reflexivity.
Defined.

(** X17, witness: the info of a document with one layer. *)
Lemma document_info_shape_witness :
  exists info,
    document_info (Demo.doc "abc123" (VStr "Invoice 2024"))
      Demo.one_layer Demo.no_annotations = Ok info /\
    exists ls ans louts aouts,
      Demo.one_layer = VArr ls /\ Demo.no_annotations = VArr ans /\
      keys_of info =
        Some ["id"; "title"; "pageCount"; "layers"; "annotations"] /\
      get_prop info "layers" = Ok (VArr louts) /\
      get_prop info "annotations" = Ok (VArr aouts) /\
      List.length louts = List.length ls /\
      List.length aouts = List.length ans /\
      Forall (fun out => keys_of out = Some ["id"; "name"; "visible"])
        louts /\
      Forall
        (fun out => keys_of out = Some ["id"; "type"; "page"; "content"])
        aouts.
Proof.
  eexists. split; [reflexivity|].
  exact (@document_info_shape Z (Demo.doc "abc123" (VStr "Invoice 2024"))
           Demo.one_layer Demo.no_annotations _ eq_refl).
Defined.

(** X19, witness: the cursor [p2] of one page, passed to the next. *)
Lemma next_cursor_is_usable_witness :
  fst (run (Demo.list_resources (Demo.backend_const Demo.empty_listing)
              {| list_params := None |}) tt) =
  Ok {| resources := []; nextCursor := VStr "p2" |} /\
  calls_of
    (snd (run (Demo.list_resources (Demo.backend_const Demo.empty_listing)
                 {| list_params := Some {| cursor := Some "p2" |} |}) tt)) =
  [Get "/api/documents" (VObj [("params", VObj [("page", VStr "p2")])])].
Proof.
  destruct (@next_cursor_is_usable Z Demo.num_to_string Demo.num_is_falsy
              unit (Demo.backend_const Demo.empty_listing)
              {| list_params := None |} tt
              {| resources := []; nextCursor := VStr "p2" |} _ eq_refl)
    as [_ H].
  split; [reflexivity | exact (H "p2" tt eq_refl)].
Defined.

(** X21, witness: two secrets, the same lines. *)
Lemma start_log_hides_secret_witness :
  stderr_of (start (Demo.env_with_secret "s3cret")) =
  stderr_of (start (Demo.env_with_secret "other")).
Proof.
  apply start_log_hides_secret.
  - intros key Hkey. unfold Demo.env_with_secret.
    destruct (String.eqb key "DOCUMENT_ENGINE_BASE_URL"); [reflexivity|].
    apply String.eqb_neq in Hkey. now rewrite Hkey.
  - intros [H | H]; discriminate H.
  - intros [H | H]; discriminate H.
Defined.
